(** * University timetable management: the scheduling core

    Shallow embedding of the scheduling-related parts of the design
    document of the repository:
    - the SQL triggers [check_timetable_conflicts] and
      [validate_availability_times] over the [timetables], [batches],
      [staff_assignments] and [availability] tables;
    - the Python pseudocode [generate_timetable], [schedule_subject],
      [schedule_component], [find_optimal_slot], [calculate_slot_score]
      and [resolve_conflicts].

    SQL [TIME] values are minutes since midnight ([Z]).  The helpers that
    the pseudocode calls but never defines ([get_available_slots],
    [is_slot_available], [has_consecutive_slots], ...) are section
    variables: every theorem about the pseudocode holds for any
    implementation of them. *)

From Stdlib Require Import List Bool ZArith Lia Sorted Permutation.
From Stdlib Require Import String.
From Stdlib Require Import List.
Import ListNotations.
Open Scope Z_scope.

(** ** Shared enumerations *)

(** [day_of_week ENUM('monday', ..., 'sunday')] *)
Inductive day_of_week :=
  | monday | tuesday | wednesday | thursday | friday | saturday | sunday.

Definition day_eqb (a b : day_of_week) : bool :=
  match a, b with
  | monday, monday | tuesday, tuesday | wednesday, wednesday
  | thursday, thursday | friday, friday | saturday, saturday
  | sunday, sunday => true
  | _, _ => false
  end.

(** [component_type ENUM('lecture', 'tutorial', 'lab')] *)
Inductive component_type := lecture | tutorial | lab.

Definition component_eqb (a b : component_type) : bool :=
  match a, b with
  | lecture, lecture | tutorial, tutorial | lab, lab => true
  | _, _ => false
  end.

(** Outcome of a [BEFORE INSERT] trigger: the row goes on, or
    [SIGNAL SQLSTATE '45000'] with a message aborts the statement. *)
Inductive trigger_result := Proceed | Signal (message : String.string).

(** ** The [timetables] table and its conflict trigger *)

Module Timetables.

(** One row of [timetables] (the columns the trigger reads, plus the
    room, which it does not read). *)
Record row := mkRow {
  id : Z;
  batch_id : Z;
  subject_id : Z;
  staff_id : Z;
  day : day_of_week;
  start_time : Z;
  end_time : Z;
  component : component_type;
  room_id : option Z
}.

(** SQL [x BETWEEN a AND b]. *)
Definition between (x a b : Z) : bool := (a <=? x) && (x <=? b).

(** The overlap condition of the trigger, with [r] an existing row. *)
Definition trigger_overlap (nw r : row) : bool :=
  between (start_time nw) (start_time r) (end_time r)
  || between (end_time nw) (start_time r) (end_time r)
  || between (start_time r) (start_time nw) (end_time nw).

(** [SELECT COUNT( * ) ... WHERE staff_id = NEW.staff_id AND day_of_week =
    NEW.day_of_week AND id != NEW.id AND (...)] *)
Definition staff_conflict_count (tbl : list row) (nw : row) : nat :=
  length (filter (fun r => (staff_id r =? staff_id nw)
                           && day_eqb (day r) (day nw)
                           && negb (id r =? id nw)
                           && trigger_overlap nw r) tbl).

Definition batch_conflict_count (tbl : list row) (nw : row) : nat :=
  length (filter (fun r => (batch_id r =? batch_id nw)
                           && day_eqb (day r) (day nw)
                           && negb (id r =? id nw)
                           && trigger_overlap nw r) tbl).

(** [CREATE TRIGGER check_timetable_conflicts BEFORE INSERT ON timetables] *)
Definition check_timetable_conflicts (tbl : list row) (nw : row)
  : trigger_result :=
  if (0 <? staff_conflict_count tbl nw)%nat
  then Signal "Staff scheduling conflict detected"%string
  else if (0 <? batch_conflict_count tbl nw)%nat
  then Signal "Batch scheduling conflict detected"%string
  else Proceed.

(** [INSERT INTO timetables]: the trigger runs first; a signal aborts the
    insert; a duplicate primary key is refused. *)
Definition insert_timetable (tbl : list row) (nw : row)
  : option (list row) :=
  match check_timetable_conflicts tbl nw with
  | Signal _ => None
  | Proceed =>
      if existsb (fun r => id r =? id nw) tbl then None
      else Some (tbl ++ [nw])
  end.

(** Half-open overlap of [[s1,e1)] and [[s2,e2)]. *)
Definition half_open_overlap (s1 e1 s2 e2 : Z) : bool :=
  (s1 <? e2) && (s2 <? e1).

(** Two rows on the same day share the staff member or the batch and
    their half-open intervals overlap. *)
Definition clash_staff_batch (a b : row) : bool :=
  day_eqb (day a) (day b)
  && ((staff_id a =? staff_id b) || (batch_id a =? batch_id b))
  && half_open_overlap (start_time a) (end_time a)
       (start_time b) (end_time b).

(** No two rows of the table (at different positions) clash on staff or
    batch. *)
Fixpoint no_double_booking (tbl : list row) : bool :=
  match tbl with
  | [] => true
  | a :: rest =>
      forallb (fun b => negb (clash_staff_batch a b)) rest
      && no_double_booking rest
  end.

(** Two rows on the same day share a room and their half-open intervals
    overlap. *)
Definition clash_room (a b : row) : bool :=
  day_eqb (day a) (day b)
  && match room_id a, room_id b with
     | Some x, Some y => x =? y
     | _, _ => false
     end
  && half_open_overlap (start_time a) (end_time a)
       (start_time b) (end_time b).

(** Sample rows: a Monday 09:00-10:00 lecture of staff 100 for batch 1 in
    room 5, and three candidate insertions. *)
Definition row_mon_9_10 := mkRow 1 1 10 100 monday 540 600 lecture (Some 5).
(** Other staff, other batch, same room, same time. *)
Definition row_same_room := mkRow 2 2 20 200 monday 540 600 lecture (Some 5).
(** Same staff and batch, Monday 10:10-11:10. *)
Definition row_mon_1010 := mkRow 3 1 10 100 monday 610 670 tutorial (Some 5).
(** Same staff and batch, Monday 10:00-11:00, right after the first. *)
Definition row_mon_10_11 := mkRow 4 1 10 100 monday 600 660 tutorial (Some 6).

End Timetables.

(** ** The [availability] table and its validation trigger *)

Module Availability.

(** The time-window columns of [batches]: [TIME DEFAULT ...] without
    [NOT NULL], so each may be [NULL] ([None]). *)
Record batch := mkBatch {
  b_id : Z;
  weekday_start_time : option Z;
  weekday_end_time : option Z;
  weekend_start_time : option Z;
  weekend_end_time : option Z
}.

(** One row of [staff_assignments]. *)
Record staff_assignment := mkAssignment {
  sa_staff_id : Z;
  sa_subject_id : Z;
  sa_batch_id : Z
}.

(** [availability_type ENUM('weekday', 'weekend', 'both')] *)
Inductive availability_type := weekday | weekend | both.

(** One row of [availability]. *)
Record availability := mkAvailability {
  av_staff_id : Z;
  av_day : day_of_week;
  av_start_time : Z;
  av_end_time : Z;
  availability_type_of : availability_type;
  is_available : bool
}.

(** [SELECT batch_id FROM staff_assignments WHERE staff_id = s LIMIT 1]:
    with no [ORDER BY], the row that comes first in the scan, here the
    first in list order; [None] is SQL [NULL] (no row). *)
Definition first_assignment_batch (sas : list staff_assignment) (s : Z)
  : option Z :=
  match find (fun a => sa_staff_id a =? s) sas with
  | Some a => Some (sa_batch_id a)
  | None => None
  end.

(** [FROM batches WHERE id = (...)]: [id] is the primary key; a [NULL]
    key matches no row. *)
Definition lookup_batch (bs : list batch) (k : option Z) : option batch :=
  match k with
  | Some i => find (fun b => b_id b =? i) bs
  | None => None
  end.

(** [x < v] in an [IF] condition, where a [NULL] operand ([None]) makes
    the comparison unknown, which [IF] treats as false. *)
Definition sql_lt (x : Z) (v : option Z) : bool :=
  match v with Some y => x <? y | None => false end.

Definition sql_gt (x : Z) (v : option Z) : bool :=
  match v with Some y => y <? x | None => false end.

(** [CREATE TRIGGER validate_availability_times BEFORE INSERT ON
    availability].  [SELECT ... INTO] that finds no row leaves the
    declared variables [NULL]. *)
Definition validate_availability_times (bs : list batch)
    (sas : list staff_assignment) (nw : availability) : trigger_result :=
  let b := lookup_batch bs (first_assignment_batch sas (av_staff_id nw)) in
  let '(batch_start, batch_end) :=
    match availability_type_of nw with
    | weekday =>
        match b with
        | Some r => (weekday_start_time r, weekday_end_time r)
        | None => (None, None)
        end
    | _ =>
        match b with
        | Some r => (weekend_start_time r, weekend_end_time r)
        | None => (None, None)
        end
    end in
  if sql_lt (av_start_time nw) batch_start || sql_gt (av_end_time nw) batch_end
  then Signal "Availability time must be within batch constraints"%string
  else if av_end_time nw <=? av_start_time nw
  then Signal "Start time must be before end time"%string
  else Proceed.

(** The two checks of the trigger against one fixed window [[ws, we]]
    (either bound may be [NULL]). *)
Definition check_against_window (ws we : option Z) (nw : availability)
  : trigger_result :=
  if sql_lt (av_start_time nw) ws || sql_gt (av_end_time nw) we
  then Signal "Availability time must be within batch constraints"%string
  else if av_end_time nw <=? av_start_time nw
  then Signal "Start time must be before end time"%string
  else Proceed.

(** Sample data: staff 7 is assigned first to batch 1 (weekdays
    08:30-17:30, weekends 08:30-20:30), then to batch 2 (evenings
    18:00-21:00). *)
Definition batch1 := mkBatch 1 (Some 510) (Some 1050) (Some 510) (Some 1230).
Definition batch2 :=
  mkBatch 2 (Some 1080) (Some 1260) (Some 1080) (Some 1260).
Definition staff7_assignments :=
  [mkAssignment 7 10 1; mkAssignment 7 20 2].
(** A weekday evening window that fits batch 2 only. *)
Definition av_weekday_evening := mkAvailability 7 monday 1080 1200 weekday true.
(** A [both] window 17:30-20:00, past batch 1's weekday end. *)
Definition av_both_late := mkAvailability 7 monday 1050 1200 both true.

End Availability.

(** ** The scheduling pseudocode *)

Module Scheduler.

(** Python's [list.sort(key=..., reverse=True)] on [(slot, score)] pairs:
    a stable sort by descending score.  Pairs are inserted from left to
    right, each one after every pair whose score is at least its own, so
    equal scores keep their original order. *)
Fixpoint insert_desc {A : Type} (x : A * Z) (l : list (A * Z))
  : list (A * Z) :=
  match l with
  | [] => [x]
  | y :: r => if snd x <=? snd y then y :: insert_desc x r else x :: l
  end.

Definition sort_by_score_desc {A : Type} (l : list (A * Z)) : list (A * Z) :=
  fold_left (fun acc x => insert_desc x acc) l [].

(** [y] may come before [x] in descending score order. *)
Definition score_ge {A : Type} (y x : A * Z) : Prop := snd x <= snd y.

(** The pair has score [k]. *)
Definition has_score {A : Type} (k : Z) (p : A * Z) : bool := snd p =? k.

(** Python's [list.remove(x)]: drop the first element equal to [x]. *)
Fixpoint remove_first {A : Type} (eqb : A -> A -> bool) (x : A) (l : list A)
  : list A :=
  match l with
  | [] => []
  | y :: r => if eqb y x then r else y :: remove_first eqb x r
  end.

Section Pseudocode.

Context {Subject SubjectId Staff StaffAssignments Availability BatchId
         Constraints Slot Timetable : Type}.

(** Attributes and helpers the pseudocode uses without defining them. *)
Variable subject_id : Subject -> SubjectId.
Variable subject_eqb : Subject -> Subject -> bool.   (* Python [==] *)
Variable slot_hour : Slot -> Z.                       (* [slot.hour] *)
Variable sort_subjects_by_priority : list Subject -> list Subject.
Variable get_available_staff : SubjectId -> StaffAssignments -> Staff.
Variable get_batch_constraints : BatchId -> Constraints.
Variable get_component_duration : component_type -> Z.
Variable get_available_slots : Staff -> Availability -> Constraints -> list Slot.
Variable is_slot_available : Slot -> Z -> Timetable -> bool.
Variable has_consecutive_slots : Slot -> Staff -> Timetable -> bool.
Variable creates_gap : Slot -> Staff -> Timetable -> bool.
Variable is_preferred_time : Slot -> Staff -> bool.
Variable assign_slot : Subject -> component_type -> Slot -> Timetable -> Timetable.
Variable can_reschedule : Subject -> Timetable -> bool.
Variable reschedule_subject : Subject -> Timetable -> Timetable.
Variable empty_timetable : Timetable.                 (* [{}] *)

(** [calculate_slot_score(slot, component_type, staff, timetable)] *)
Definition calculate_slot_score (slot : Slot) (ct : component_type)
    (staff : Staff) (timetable : Timetable) : Z :=
  let score := 0 in
  let score := if component_eqb ct lecture && (slot_hour slot <? 12)
               then score + 10 else score in
  let score := if has_consecutive_slots slot staff timetable
               then score + 15 else score in
  let score := if creates_gap slot staff timetable
               then score - 5 else score in
  let score := if is_preferred_time slot staff
               then score + 20 else score in
  score.

(** [find_optimal_slot(component_type, staff, availability, constraints,
    timetable)]: score every slot, sort by score (descending, stable) and
    return the first one [is_slot_available] accepts. *)
Definition find_optimal_slot (ct : component_type) (staff : Staff)
    (availability : Availability) (constraints : Constraints)
    (timetable : Timetable) : option Slot :=
  let duration := get_component_duration ct in
  let available_slots := get_available_slots staff availability constraints in
  let scored_slots :=
    map (fun slot => (slot, calculate_slot_score slot ct staff timetable))
      available_slots in
  let sorted := sort_by_score_desc scored_slots in
  match find (fun p => is_slot_available (fst p) duration timetable) sorted with
  | Some (slot, _) => Some slot
  | None => None
  end.

(** [schedule_component(...)]: the timetable is updated in place by
    [assign_slot]; here it is passed along and returned. *)
Definition schedule_component (subject : Subject) (ct : component_type)
    (batch_id : BatchId) (staff_assignments : StaffAssignments)
    (availability : Availability) (timetable : Timetable)
  : bool * Timetable :=
  let available_staff := get_available_staff (subject_id subject)
                           staff_assignments in
  let batch_constraints := get_batch_constraints batch_id in
  match find_optimal_slot ct available_staff availability batch_constraints
          timetable with
  | Some optimal_slot =>
      (true, assign_slot subject ct optimal_slot timetable)
  | None => (false, timetable)
  end.

(** [schedule_subject(...)]: lecture, tutorial, lab in turn; the first
    failure returns [False], keeping what was already assigned. *)
Fixpoint schedule_components (subject : Subject) (cts : list component_type)
    (batch_id : BatchId) (staff_assignments : StaffAssignments)
    (availability : Availability) (timetable : Timetable)
  : bool * Timetable :=
  match cts with
  | [] => (true, timetable)
  | ct :: rest =>
      let '(ok, timetable) := schedule_component subject ct batch_id
                                staff_assignments availability timetable in
      if ok then schedule_components subject rest batch_id staff_assignments
                   availability timetable
      else (false, timetable)
  end.

Definition schedule_subject (subject : Subject) (batch_id : BatchId)
    (staff_assignments : StaffAssignments) (availability : Availability)
    (timetable : Timetable) : bool * Timetable :=
  schedule_components subject [lecture; tutorial; lab] batch_id
    staff_assignments availability timetable.

(** [resolve_conflicts(conflicts, timetable)]: a Python [for] loop over a
    list that the body shrinks with [conflicts.remove]; the iterator walks
    an index [i] over the current list, so removing an element makes the
    next one be skipped.  [fuel] bounds the iterations; each one raises
    [i] and never lengthens the list, so [length conflicts] suffices. *)
Fixpoint resolve_loop (fuel : nat) (i : nat) (conflicts : list Subject)
    (timetable : Timetable) : list Subject * Timetable :=
  match fuel with
  | O => (conflicts, timetable)
  | S fuel' =>
      match nth_error conflicts i with
      | None => (conflicts, timetable)
      | Some conflict =>
          if can_reschedule conflict timetable
          then resolve_loop fuel' (S i)
                 (remove_first subject_eqb conflict conflicts)
                 (reschedule_subject conflict timetable)
          else resolve_loop fuel' (S i) conflicts timetable
      end
  end.

(** Returns the mutated conflict list and timetable, and
    [len(conflicts) == 0]. *)
Definition resolve_conflicts (conflicts : list Subject) (timetable : Timetable)
  : list Subject * Timetable * bool :=
  let '(conflicts, timetable) :=
    resolve_loop (length conflicts) 0 conflicts timetable in
  (conflicts, timetable, Nat.eqb (length conflicts) 0).

(** The [for subject in sorted_subjects] loop of [generate_timetable];
    [None] is the early [return None, conflicts]. *)
Fixpoint generate_loop (sorted_subjects : list Subject) (batch_id : BatchId)
    (staff_assignments : StaffAssignments) (availability : Availability)
    (timetable : Timetable) (conflicts : list Subject)
  : option Timetable * list Subject :=
  match sorted_subjects with
  | [] => (Some timetable, conflicts)
  | subject :: rest =>
      let '(success, timetable) :=
        schedule_subject subject batch_id staff_assignments availability
          timetable in
      if success
      then generate_loop rest batch_id staff_assignments availability
             timetable conflicts
      else
        let conflicts := conflicts ++ [subject] in
        let '(conflicts, timetable, resolved) :=
          resolve_conflicts conflicts timetable in
        if resolved
        then generate_loop rest batch_id staff_assignments availability
               timetable conflicts
        else (None, conflicts)
  end.

(** [generate_timetable(batch_id, subjects, staff_assignments,
    availability)] *)
Definition generate_timetable (batch_id : BatchId) (subjects : list Subject)
    (staff_assignments : StaffAssignments) (availability : Availability)
  : option Timetable * list Subject :=
  generate_loop (sort_subjects_by_priority subjects) batch_id
    staff_assignments availability empty_timetable [].

(** [processed b sa av ss tt tt']: the subject loop gets through the
    subjects [ss] one by one, from timetable [tt] to [tt'].  Each subject
    is either scheduled by [schedule_subject], or fails there and is then
    cleared by [resolve_conflicts] on the conflict list [[x]]. *)
Inductive processed (batch_id : BatchId) (staff_assignments : StaffAssignments)
    (availability : Availability)
  : list Subject -> Timetable -> Timetable -> Prop :=
| processed_nil (timetable : Timetable) :
    processed batch_id staff_assignments availability [] timetable timetable
| processed_scheduled (x : Subject) (rest : list Subject)
    (tt tt1 tt' : Timetable) :
    schedule_subject x batch_id staff_assignments availability tt
      = (true, tt1) ->
    processed batch_id staff_assignments availability rest tt1 tt' ->
    processed batch_id staff_assignments availability (x :: rest) tt tt'
| processed_resolved (x : Subject) (rest : list Subject)
    (tt tt1 tt2 tt' : Timetable) :
    schedule_subject x batch_id staff_assignments availability tt
      = (false, tt1) ->
    resolve_conflicts [x] tt1 = ([], tt2, true) ->
    processed batch_id staff_assignments availability rest tt2 tt' ->
    processed batch_id staff_assignments availability (x :: rest) tt tt'.

(** [places_all b sa av ss tt tt']: along the run over [ss] from [tt],
    [find_optimal_slot] finds a slot for the lecture, the tutorial and
    the lab of every subject, each search seeing the slots assigned
    before it; [tt'] is the timetable with all of them assigned. *)
Inductive places_all (batch_id : BatchId)
    (staff_assignments : StaffAssignments) (availability : Availability)
  : list Subject -> Timetable -> Timetable -> Prop :=
| places_nil (timetable : Timetable) :
    places_all batch_id staff_assignments availability [] timetable timetable
| places_cons (x : Subject) (rest : list Subject) (tt : Timetable)
    (s1 s2 s3 : Slot) (tt' : Timetable) :
    find_optimal_slot lecture
      (get_available_staff (subject_id x) staff_assignments) availability
      (get_batch_constraints batch_id) tt = Some s1 ->
    find_optimal_slot tutorial
      (get_available_staff (subject_id x) staff_assignments) availability
      (get_batch_constraints batch_id) (assign_slot x lecture s1 tt)
    = Some s2 ->
    find_optimal_slot lab
      (get_available_staff (subject_id x) staff_assignments) availability
      (get_batch_constraints batch_id)
      (assign_slot x tutorial s2 (assign_slot x lecture s1 tt)) = Some s3 ->
    places_all batch_id staff_assignments availability rest
      (assign_slot x lab s3
         (assign_slot x tutorial s2 (assign_slot x lecture s1 tt))) tt' ->
    places_all batch_id staff_assignments availability (x :: rest) tt tt'.

End Pseudocode.

End Scheduler.

(** ** A small concrete instance of the undefined helpers

    Used to run the pseudocode on explicit inputs.  Subjects carry the
    duration columns of the [subjects] table; a slot is a (day, hour,
    staff, room) candidate; the availability snapshot is the list of
    candidate slots of each staff member; the timetable is the list of
    assignments made so far. *)

Module Toy.

Record subject := mkSubject {
  subj_id : nat;
  lecture_duration : Z;
  tutorial_duration : Z;
  lab_duration : Z
}.

Record slot := mkSlot {
  s_day : day_of_week;
  s_hour : Z;
  s_staff : nat;
  s_room : nat
}.

Definition timetable := list (nat * component_type * slot).

(** [staff_assignments] as (staff, subject) pairs. *)
Definition get_available_staff (sid : nat) (sas : list (nat * nat))
  : list nat :=
  map fst (filter (fun p => Nat.eqb (snd p) sid) sas).

Definition get_batch_constraints (b : nat) : unit := tt.

Definition get_component_duration (ct : component_type) : Z := 60.

Definition get_available_slots (staff : list nat) (av : list slot) (_ : unit)
  : list slot :=
  filter (fun s => existsb (Nat.eqb (s_staff s)) staff) av.

(** A slot is free when no assignment uses the same day and hour. *)
Definition is_slot_available (s : slot) (_ : Z) (tt : timetable) : bool :=
  forallb (fun e => negb (day_eqb (s_day (snd e)) (s_day s)
                          && (s_hour (snd e) =? s_hour s))) tt.

Definition no_consecutive (_ : slot) (_ : list nat) (_ : timetable) : bool :=
  false.
Definition no_gap (_ : slot) (_ : list nat) (_ : timetable) : bool := false.
Definition no_preference (_ : slot) (_ : list nat) : bool := false.

Definition assign_slot (sub : subject) (ct : component_type) (s : slot)
    (tt : timetable) : timetable :=
  tt ++ [(subj_id sub, ct, s)].

Definition cannot_reschedule (_ : subject) (_ : timetable) : bool := false.
Definition keep_timetable (_ : subject) (tt : timetable) : timetable := tt.

Definition subject_eqb (a b : subject) : bool := Nat.eqb (subj_id a) (subj_id b).

Definition find_optimal_slot :=
  Scheduler.find_optimal_slot s_hour get_component_duration
    get_available_slots is_slot_available no_consecutive no_gap no_preference.

Definition generate_timetable :=
  Scheduler.generate_timetable subj_id subject_eqb s_hour (fun l => l)
    get_available_staff get_batch_constraints get_component_duration
    get_available_slots is_slot_available no_consecutive no_gap
    no_preference assign_slot cannot_reschedule keep_timetable [].

(** Canonical order of days, Monday first. *)
Definition day_index (d : day_of_week) : nat :=
  match d with
  | monday => 0 | tuesday => 1 | wednesday => 2 | thursday => 3
  | friday => 4 | saturday => 5 | sunday => 6
  end%nat.

(** Staff 7 teaches subjects 1, 2 and 3 and is free on Monday at 9, 10
    and 11 only. *)
Definition sub1 := mkSubject 1 60 60 120.
Definition sub2 := mkSubject 2 60 60 120.
Definition sub3 := mkSubject 3 60 60 120.
Definition assignments : list (nat * nat) := [(7, 1); (7, 2); (7, 3)]%nat.
Definition monday_slots : list slot :=
  [mkSlot monday 9 7 1; mkSlot monday 10 7 1; mkSlot monday 11 7 1].

(** A second instance in which every search finds a slot: one candidate,
    always free. *)
Definition one_slot (_ : list nat) (_ : list slot) (_ : unit) : list slot :=
  [mkSlot monday 9 7 1].
Definition always_free (_ : slot) (_ : Z) (_ : timetable) : bool := true.

Definition generate_timetable_free :=
  Scheduler.generate_timetable subj_id subject_eqb s_hour (fun l => l)
    get_available_staff get_batch_constraints get_component_duration
    one_slot always_free no_consecutive no_gap no_preference assign_slot
    cannot_reschedule keep_timetable [].

(** A subject whose durations are all zero. *)
Definition sub_zero := mkSubject 1 0 0 0.

(** Two free candidates of equal score, Tuesday listed before Monday. *)
Definition tue_9 := mkSlot tuesday 9 7 1.
Definition mon_9 := mkSlot monday 9 7 2.






End Toy.

(** ** The audit trigger on [timetables] *)

Module Audit.
Import Timetables.

(** SQL three-valued logic: [None] is [NULL] (unknown). *)
Definition sql_neq (a b : option Z) : option bool :=
  match a, b with
  | Some x, Some y => Some (negb (x =? y))
  | _, _ => None
  end.

Definition sql_or (a b : option bool) : option bool :=
  match a, b with
  | Some true, _ | _, Some true => Some true
  | Some false, Some false => Some false
  | _, _ => None
  end.

(** [JSON_OBJECT('start_time', ..., 'end_time', ..., 'staff_id', ...,
    'room_id', ...)] *)
Record audited_values := mkAudited {
  av_start : Z;
  av_end : Z;
  av_staff : Z;
  av_room : option Z
}.

Definition audited (r : row) : audited_values :=
  mkAudited (start_time r) (end_time r) (staff_id r) (room_id r).

(** One row of [audit_logs]. *)
Record audit_log := mkAuditLog {
  table_name : String.string;
  record_id : Z;
  action : String.string;
  old_values : audited_values;
  new_values : audited_values;
  log_user_id : option Z;     (* [@current_user_id] *)
  log_timestamp : Z           (* [NOW()] *)
}.

(** [CREATE TRIGGER audit_timetable_changes AFTER UPDATE ON timetables]:
    the rows it inserts into [audit_logs] for one updated row.  The four
    [!=] tests are over [NOT NULL] columns except [room_id], which may be
    [NULL]; an [IF] whose condition is unknown is not taken. *)
Definition audit_timetable_changes (old nw : row) (current_user_id : option Z)
    (now : Z) : list audit_log :=
  if match sql_or (sql_or (sql_or
           (sql_neq (Some (start_time old)) (Some (start_time nw)))
           (sql_neq (Some (end_time old)) (Some (end_time nw))))
           (sql_neq (Some (staff_id old)) (Some (staff_id nw))))
           (sql_neq (room_id old) (room_id nw)) with
     | Some true => true
     | _ => false
     end
  then [mkAuditLog "timetables"%string (id nw) "UPDATE"%string
          (audited old) (audited nw) current_user_id now]
  else [].

End Audit.

(** ** The [comments] table, its rating check and its notification trigger *)

Module Comments.

(** One row of [comments]. *)
Record comment := mkComment {
  c_id : Z;
  c_user_id : Z;
  c_timetable_id : Z;
  c_parent_comment_id : option Z;
  c_text : String.string;
  c_rating : option Z;
  c_is_approved : bool
}.

(** The message [CONCAT('New comment from user ', user_id,
    ' on timetable ', timetable_id)], kept as its two numbers. *)
Inductive comment_message := NewCommentFrom (user_id timetable_id : Z).

(** One row of [admin_notifications]. *)
Record notification := mkNotification {
  n_type : String.string;
  n_reference_id : Z;
  n_message : comment_message;
  n_created_at : Z
}.

(** The [comments] and [admin_notifications] tables, and the keys of
    [users] and [timetables] that the foreign keys of [comments] refer
    to. *)
Record db := mkDb {
  user_ids : list Z;
  timetable_ids : list Z;
  comments : list comment;
  admin_notifications : list notification
}.

(** [CHECK (rating >= 1 AND rating <= 5)]: a check fails only when its
    condition is false, so a [NULL] rating passes. *)
Definition rating_check (rating : option Z) : bool :=
  match rating with
  | Some r => (1 <=? r) && (r <=? 5)
  | None => true
  end.

(** [CREATE TRIGGER notify_admin_on_comment AFTER INSERT ON comments] *)
Definition notify_admin_on_comment (nw : comment) (now : Z) : notification :=
  mkNotification "new_comment"%string (c_id nw)
    (NewCommentFrom (c_user_id nw) (c_timetable_id nw)) now.

(** [TEXT] holds at most 65,535 bytes; a string is a list of bytes. *)
Definition text_fits (t : String.string) : bool :=
  Z.of_nat (String.length t) <=? 65535.

(** [INSERT INTO comments], in strict SQL mode: a text too long for
    [TEXT], a failed check, a duplicate primary key or a foreign key
    without its referenced row aborts the statement and leaves the
    database unchanged.  [parent_comment_id] may be [NULL], name a stored
    comment, or name the row being inserted (the self-referencing key is
    checked once the row is in).  Otherwise the row is added and the
    [AFTER INSERT] trigger runs in the same statement. *)
Definition insert_comment (d : db) (nw : comment) (now : Z) : option db :=
  if negb (text_fits (c_text nw)) then None
  else if negb (rating_check (c_rating nw)) then None
  else if existsb (fun c => c_id c =? c_id nw) (comments d) then None
  else if negb (existsb (fun u => u =? c_user_id nw) (user_ids d)) then None
  else if negb (existsb (fun t => t =? c_timetable_id nw) (timetable_ids d))
  then None
  else if match c_parent_comment_id nw with
          | Some p => negb (existsb (fun c => c_id c =? p) (comments d ++ [nw]))
          | None => false
          end
  then None
  else Some (mkDb (user_ids d) (timetable_ids d) (comments d ++ [nw])
                  (admin_notifications d ++ [notify_admin_on_comment nw now])).

End Comments.

(** ** Route guards of the frontend ([auth.js]) *)

Module Auth.

Section Guards.

(** A parsed JSON value and its [role] property; [json_parse] is
    [JSON.parse], [None] when it throws. *)
Context {Json : Type}.
Variable json_parse : String.string -> option Json.
(** [user.role] when [user] is an object with a string [role]. *)
Variable json_role : Json -> option String.string.
(** JavaScript truthiness of a parsed value ([null], [0], [false], ...
    are falsy). *)
Variable json_truthy : Json -> bool.

(** The two [localStorage] entries the guards read. *)
Record storage := mkStorage {
  ls_access : option String.string;
  ls_user : option String.string
}.

(** A string is truthy when it is not empty. *)
Definition str_truthy (s : option String.string) : bool :=
  match s with
  | Some v => negb (String.eqb v "")
  | None => false
  end.

(** [getStoredUser]: [None] is [null]. *)
Definition getStoredUser (st : storage) : option Json :=
  match ls_user st with
  | Some raw => if str_truthy (Some raw) then json_parse raw else None
  | None => None
  end.

Definition isAuthenticated (st : storage) : bool := str_truthy (ls_access st).

(** [Boolean(user && user.role === 'admin')] *)
Definition isAdmin (st : storage) : bool :=
  match getStoredUser st with
  | Some u =>
      json_truthy u
      && match json_role u with
         | Some r => String.eqb r "admin"
         | None => false
         end
  | None => false
  end.

(** What a guard renders: its children, or a redirect. *)
Inductive render := Children | NavigateTo (path : String.string).

Definition RequireAuth (st : storage) : render :=
  if negb (isAuthenticated st) then NavigateTo "/login" else Children.

Definition RequireGuest (st : storage) : render :=
  if isAuthenticated st then NavigateTo "/" else Children.

Definition RequireAdmin (st : storage) : render :=
  if negb (isAuthenticated st) then NavigateTo "/login"
  else if negb (isAdmin st) then NavigateTo "/"
  else Children.

End Guards.

End Auth.

(** ** The request interceptor of the API client ([api.js]) *)

Module Api.

(** Request headers as a JavaScript object: an association list whose
    assignment overwrites an existing key in place. *)
Definition headers := list (String.string * String.string).

Fixpoint set_header (k v : String.string) (h : headers) : headers :=
  match h with
  | [] => [(k, v)]
  | (k', v') :: r =>
      if String.eqb k' k then (k, v) :: r else (k', v') :: set_header k v r
  end.

Fixpoint get_header (k : String.string) (h : headers) : option String.string :=
  match h with
  | [] => None
  | (k', v) :: r => if String.eqb k' k then Some v else get_header k r
  end.

(** The interceptor, given the stored [access] and [csrftoken] values and
    [config.headers] ([None] when undefined).  It returns the resulting
    [config.headers], or [None] for the [TypeError] of assigning a
    property of [undefined]. *)
Definition request_interceptor (access csrf : option String.string)
    (hdrs : option headers) : option (option headers) :=
  let hdrs :=
    match access with
    | Some t =>
        if Auth.str_truthy (Some t) then
          let h := match hdrs with Some h => h | None => [] end in
          Some (set_header "Authorization" ("Bearer " ++ t) h)
        else hdrs
    | None => hdrs
    end in
  match csrf with
  | Some c =>
      if Auth.str_truthy (Some c) then
        match hdrs with
        | Some h => Some (Some (set_header "X-CSRFToken" c h))
        | None => None
        end
      else Some hdrs
  | None => Some hdrs
  end.

End Api.

(** The elements at odd positions (second, fourth, ...) of a list. *)
Fixpoint odd_positions {A : Type} (l : list A) : list A :=
  match l with
  | _ :: y :: r => y :: odd_positions r
  | _ => []
  end.

(** * Properties *)

Lemma day_eqb_true (a b : day_of_week) : day_eqb a b = true <-> a = b.
Proof. destruct a, b; simpl; split; congruence. Qed.

Module TimetablesFacts.
Import Timetables.

(** Every half-open overlap is caught by the trigger's [BETWEEN] test. *)
Lemma half_open_trigger_overlap (nw r : row) :
  half_open_overlap (start_time r) (end_time r) (start_time nw) (end_time nw)
    = true ->
  trigger_overlap nw r = true.
Proof.
  unfold half_open_overlap, trigger_overlap, between.
  intro H. apply andb_true_iff in H as [H1 H2].
  apply Z.ltb_lt in H1, H2.
  destruct (Z.le_gt_cases (start_time r) (start_time nw)).
  - rewrite (proj2 (Z.leb_le _ _) H), (proj2 (Z.leb_le _ _) (Z.lt_le_incl _ _ H2)).
    reflexivity.
  - rewrite !orb_true_iff, !andb_true_iff, !Z.leb_le. right. lia.
Qed.

Lemma no_double_booking_snoc (tbl : list row) (x : row) :
  no_double_booking (tbl ++ [x]) =
  no_double_booking tbl && forallb (fun a => negb (clash_staff_batch a x)) tbl.
Proof.
  induction tbl as [|a rest IH]; simpl.
  - reflexivity.
  - rewrite IH, forallb_app. simpl.
    destruct (forallb _ rest), (negb (clash_staff_batch a x)),
             (no_double_booking rest), (forallb (fun a0 => _) rest);
      reflexivity.
Qed.

Lemma filter_length_zero {A : Type} (f : A -> bool) (l : list A) (x : A) :
  length (filter f l) = 0%nat -> In x l -> f x = false.
Proof.
  intros H Hin. destruct (f x) eqn:E; [|reflexivity].
  assert (In x (filter f l)) by (apply filter_In; auto).
  destruct (filter f l); [contradiction | discriminate].
Qed.

(** C1 (as amended): an insertion that passes [check_timetable_conflicts]
    keeps the table free of same-day half-open overlaps between rows that
    share a staff member or a batch. *)
Theorem insert_preserves_no_double_booking (tbl tbl' : list row) (nw : row) :
  no_double_booking tbl = true ->
  insert_timetable tbl nw = Some tbl' ->
  no_double_booking tbl' = true.
Proof.
  intros Hinv Hins. unfold insert_timetable, check_timetable_conflicts in Hins.
  destruct (Nat.ltb_spec 0 (staff_conflict_count tbl nw)); [discriminate|].
  destruct (Nat.ltb_spec 0 (batch_conflict_count tbl nw)); [discriminate|].
  destruct (existsb (fun r => id r =? id nw) tbl) eqn:Hid; [discriminate|].
  injection Hins as <-.
  rewrite no_double_booking_snoc, Hinv. simpl.
  apply forallb_forall. intros a Ha.
  apply negb_true_iff.
  destruct (clash_staff_batch a nw) eqn:Hc; [|reflexivity].
  exfalso.
  unfold clash_staff_batch in Hc.
  apply andb_true_iff in Hc as [Hc Hov].
  apply andb_true_iff in Hc as [Hday Hsb].
  pose proof (half_open_trigger_overlap nw a Hov) as Htr.
  assert (Hne : (id a =? id nw) = false).
  { destruct (id a =? id nw) eqn:E; [|reflexivity].
    assert (existsb (fun r => id r =? id nw) tbl = true)
      by (apply existsb_exists; eauto).
    congruence. }
  apply orb_true_iff in Hsb as [Hs | Hb].
  - assert (Hz : staff_conflict_count tbl nw = 0%nat) by lia.
    pose proof (filter_length_zero _ _ a Hz Ha) as F. simpl in F.
    rewrite Hs, Hday, Hne, Htr in F. discriminate.
  - assert (Hz : batch_conflict_count tbl nw = 0%nat) by lia.
    pose proof (filter_length_zero _ _ a Hz Ha) as F. simpl in F.
    rewrite Hb, Hday, Hne, Htr in F. discriminate.
Qed.

Lemma insert_preserves_no_double_booking_witness :
  no_double_booking [row_mon_9_10] = true
  /\ insert_timetable [row_mon_9_10] row_mon_1010
     = Some [row_mon_9_10; row_mon_1010]
  /\ no_double_booking [row_mon_9_10; row_mon_1010] = true.
Proof.
  split; [reflexivity|]. split; [reflexivity|].
  apply (insert_preserves_no_double_booking [row_mon_9_10]
           [row_mon_9_10; row_mon_1010] row_mon_1010); reflexivity.
Defined.

(** C1 counterexample: the trigger does not look at rooms; a row that
    takes the same room at the same time for another staff member and
    batch is inserted. *)
Lemma room_double_booking_accepted :
  insert_timetable [row_mon_9_10] row_same_room
    = Some [row_mon_9_10; row_same_room]
  /\ clash_room row_mon_9_10 row_same_room = true.
Proof. split; reflexivity. Qed.

(** C3: the trigger's [BETWEEN] bounds are inclusive, so a slot that
    starts when another slot of the same staff member ends is refused,
    although the half-open intervals do not overlap. *)
Lemma back_to_back_rejected :
  half_open_overlap (start_time row_mon_9_10) (end_time row_mon_9_10)
    (start_time row_mon_10_11) (end_time row_mon_10_11) = false
  /\ check_timetable_conflicts [row_mon_9_10] row_mon_10_11
     = Signal "Staff scheduling conflict detected"%string
  /\ insert_timetable [row_mon_9_10] row_mon_10_11 = None.
Proof. split; [reflexivity | split; reflexivity]. Qed.

End TimetablesFacts.

Module AvailabilityFacts.
Import Availability.

Lemma first_assignment_batch_app (pre post : list staff_assignment)
    (a : staff_assignment) (s : Z) :
  forallb (fun x => negb (sa_staff_id x =? s)) pre = true ->
  sa_staff_id a = s ->
  first_assignment_batch (pre ++ a :: post) s = Some (sa_batch_id a).
Proof.
  unfold first_assignment_batch.
  induction pre as [|x pre IH]; simpl; intros Hpre Ha.
  - rewrite Ha, Z.eqb_refl. reflexivity.
  - apply andb_true_iff in Hpre as [Hx Hpre].
    apply negb_true_iff in Hx. rewrite Hx. exact (IH Hpre Ha).
Qed.

(** C9: the trigger validates a new availability row against one batch
    only, the one of the staff member's first assignment row returned by
    [LIMIT 1] (any later assignment rows [post] play no part); the
    weekday window is used exactly when [availability_type] is
    ['weekday'], and the weekend window for ['weekend'] and ['both']. *)
Theorem validate_uses_single_batch (bs : list batch)
    (pre post : list staff_assignment) (a : staff_assignment) (b : batch)
    (nw : availability) :
  forallb (fun x => negb (sa_staff_id x =? av_staff_id nw)) pre = true ->
  sa_staff_id a = av_staff_id nw ->
  lookup_batch bs (Some (sa_batch_id a)) = Some b ->
  (availability_type_of nw = weekday ->
   validate_availability_times bs (pre ++ a :: post) nw
   = check_against_window (weekday_start_time b) (weekday_end_time b) nw)
  /\ (availability_type_of nw <> weekday ->
   validate_availability_times bs (pre ++ a :: post) nw
   = check_against_window (weekend_start_time b) (weekend_end_time b) nw).
Proof.
  intros Hpre Ha Hb.
  unfold validate_availability_times.
  rewrite (first_assignment_batch_app pre post a _ Hpre Ha), Hb.
  unfold check_against_window, sql_lt, sql_gt.
  split; intro Ht; destruct (availability_type_of nw); try congruence;
    reflexivity.
Qed.

Lemma validate_uses_single_batch_witness :
  validate_availability_times [batch1; batch2] staff7_assignments
    av_weekday_evening
  = check_against_window (Some 510) (Some 1050) av_weekday_evening
  /\ validate_availability_times [batch1; batch2] staff7_assignments
       av_both_late
     = check_against_window (Some 510) (Some 1230) av_both_late.
Proof.
  split.
  - apply (proj1 (validate_uses_single_batch [batch1; batch2] []
             [mkAssignment 7 20 2] (mkAssignment 7 10 1) batch1
             av_weekday_evening eq_refl eq_refl eq_refl)).
    reflexivity.
  - apply (proj2 (validate_uses_single_batch [batch1; batch2] []
             [mkAssignment 7 20 2] (mkAssignment 7 10 1) batch1
             av_both_late eq_refl eq_refl eq_refl)).
    discriminate.
Defined.

(** On the sample data: the weekday evening window that batch 2 allows
    is refused, and the [both] window that runs past batch 1's weekday end
    is accepted. *)
Example validate_examples :
  validate_availability_times [batch1; batch2] staff7_assignments
    av_weekday_evening
  = Signal "Availability time must be within batch constraints"%string
  /\ validate_availability_times [batch1; batch2] staff7_assignments
       av_both_late = Proceed.
Proof. split; reflexivity. Qed.

End AvailabilityFacts.

Module SortFacts.
Import Scheduler.

Section Sort.
Context {A : Type}.

Lemma in_insert_desc (x z : A * Z) (l : list (A * Z)) :
  In z (insert_desc x l) <-> In z (x :: l).
Proof.
  induction l as [|y r IH]; simpl.
  - tauto.
  - destruct (snd x <=? snd y); simpl; rewrite ?IH; simpl; intuition.
Qed.

Lemma insert_desc_sorted (x : A * Z) (l : list (A * Z)) :
  StronglySorted score_ge l -> StronglySorted score_ge (insert_desc x l).
Proof.
  induction l as [|y r IH]; simpl; intro H.
  - repeat constructor.
  - inversion H as [|? ? Hr Hy]; subst.
    destruct (Z.leb_spec (snd x) (snd y)).
    + constructor; [now apply IH|].
      apply Forall_forall. intros z Hz. apply in_insert_desc in Hz.
      destruct Hz as [<- | Hz]; [unfold score_ge; lia|].
      exact (proj1 (Forall_forall _ _) Hy z Hz).
    + constructor; [exact H|].
      constructor; [unfold score_ge; lia|].
      apply Forall_forall. intros z Hz.
      pose proof (proj1 (Forall_forall _ _) Hy z Hz). unfold score_ge in *. lia.
Qed.

Lemma filter_all_false {B : Type} (f : B -> bool) (l : list B) :
  (forall z, In z l -> f z = false) -> filter f l = [].
Proof.
  induction l as [|y r IH]; simpl; intro H; [reflexivity|].
  rewrite (H y (or_introl eq_refl)). apply IH. intros z Hz. apply H. now right.
Qed.

(** Inserting [x] puts it after every pair of the same score. *)
Lemma insert_desc_filter (k : Z) (x : A * Z) (l : list (A * Z)) :
  StronglySorted score_ge l ->
  filter (has_score k) (insert_desc x l)
  = filter (has_score k) l ++ filter (has_score k) [x].
Proof.
  induction l as [|y r IH]; simpl; intro H; [reflexivity|].
  inversion H as [|? ? Hr Hy]; subst.
  destruct (Z.leb_spec (snd x) (snd y)).
  - simpl. destruct (has_score k y); rewrite IH by exact Hr; reflexivity.
  - simpl. destruct (has_score k x) eqn:Hx.
    + assert (Hn : filter (has_score k) (y :: r) = []).
      { apply filter_all_false. unfold has_score in *.
        apply Z.eqb_eq in Hx.
        intros z [<- | Hz]; apply Z.eqb_neq; [lia|].
        pose proof (proj1 (Forall_forall _ _) Hy z Hz).
        unfold score_ge in *. lia. }
      simpl in Hn. rewrite Hn. reflexivity.
    + rewrite app_nil_r. reflexivity.
Qed.

Lemma fold_insert_facts (l acc : list (A * Z)) :
  StronglySorted score_ge acc ->
  StronglySorted score_ge (fold_left (fun a x => insert_desc x a) l acc)
  /\ (forall z, In z (fold_left (fun a x => insert_desc x a) l acc)
                <-> In z acc \/ In z l)
  /\ (forall k, filter (has_score k)
                  (fold_left (fun a x => insert_desc x a) l acc)
                = filter (has_score k) acc ++ filter (has_score k) l).
Proof.
  revert acc. induction l as [|x r IH]; simpl; intros acc H.
  - split; [exact H|]. split; [intro z; tauto|].
    intro k. rewrite app_nil_r. reflexivity.
  - destruct (IH (insert_desc x acc) (insert_desc_sorted x acc H))
      as [Hs [Hin Hf]].
    split; [exact Hs|]. split.
    + intro z. rewrite Hin, in_insert_desc. simpl. tauto.
    + intro k. rewrite Hf, insert_desc_filter by exact H.
      rewrite <- app_assoc. simpl. destruct (has_score k x); reflexivity.
Qed.

(** [sort_by_score_desc] is sorted by descending score, keeps the same
    elements, and is stable: the pairs of any one score keep their
    original order. *)
Lemma sort_by_score_desc_sorted (l : list (A * Z)) :
  StronglySorted score_ge (sort_by_score_desc l).
Proof. apply (fold_insert_facts l [] (SSorted_nil _)). Qed.

Lemma sort_by_score_desc_in (l : list (A * Z)) (z : A * Z) :
  In z (sort_by_score_desc l) <-> In z l.
Proof.
  destruct (fold_insert_facts l [] (SSorted_nil _)) as [_ [Hin _]].
  unfold sort_by_score_desc. rewrite Hin. simpl. tauto.
Qed.

Lemma sort_by_score_desc_stable (l : list (A * Z)) (k : Z) :
  filter (has_score k) (sort_by_score_desc l) = filter (has_score k) l.
Proof.
  destruct (fold_insert_facts l [] (SSorted_nil _)) as [_ [_ Hf]].
  apply Hf.
Qed.

End Sort.
End SortFacts.

Module SchedulerFacts.
Import Scheduler SortFacts.

Lemma find_split {B : Type} (f : B -> bool) (l : list B) (x : B) :
  find f l = Some x ->
  exists l1 l2, l = l1 ++ x :: l2 /\ (forall y, In y l1 -> f y = false)
                /\ f x = true.
Proof.
  induction l as [|y r IH]; simpl; [discriminate|].
  destruct (f y) eqn:Fy.
  - intros [= <-]. exists [], r. split; [reflexivity|]. split; [intros ? []|exact Fy].
  - intro H. destruct (IH H) as (l1 & l2 & -> & Hl1 & Hx).
    exists (y :: l1), l2. split; [reflexivity|]. split; [|exact Hx].
    intros z [<- | Hz]; auto.
Qed.

Lemma strongly_sorted_after {B : Type} (R : B -> B -> Prop) (l1 l2 : list B)
    (x : B) :
  StronglySorted R (l1 ++ x :: l2) -> Forall (R x) l2.
Proof.
  induction l1 as [|y r IH]; simpl; intro H.
  - now inversion H.
  - inversion H; subst. now apply IH.
Qed.

Lemma find_hd_filter {B : Type} (f : B -> bool) (l : list B) :
  find f l = hd_error (filter f l).
Proof.
  induction l as [|y r IH]; simpl; [reflexivity|].
  destruct (f y); [reflexivity | exact IH].
Qed.

Lemma filter_andb {B : Type} (f g : B -> bool) (l : list B) :
  filter (fun p => f p && g p) l = filter f (filter g l).
Proof.
  induction l as [|y r IH]; simpl; [reflexivity|].
  destruct (g y), (f y) eqn:F; simpl; rewrite ?F, ?IH; reflexivity.
Qed.

Lemma filter_map_comm {B C : Type} (f : C -> bool) (h : B -> C) (l : list B) :
  filter f (map h l) = map h (filter (fun x => f (h x)) l).
Proof.
  induction l as [|y r IH]; simpl; [reflexivity|].
  destruct (f (h y)); simpl; rewrite IH; reflexivity.
Qed.

Section Facts.

Context {Subject SubjectId Staff StaffAssignments Availability BatchId
         Constraints Slot Timetable : Type}.

Variable subject_id : Subject -> SubjectId.
Variable subject_eqb : Subject -> Subject -> bool.
Variable slot_hour : Slot -> Z.
Variable sort_subjects_by_priority : list Subject -> list Subject.
Variable get_available_staff : SubjectId -> StaffAssignments -> Staff.
Variable get_batch_constraints : BatchId -> Constraints.
Variable get_component_duration : component_type -> Z.
Variable get_available_slots : Staff -> Availability -> Constraints -> list Slot.
Variable is_slot_available : Slot -> Z -> Timetable -> bool.
Variable has_consecutive_slots : Slot -> Staff -> Timetable -> bool.
Variable creates_gap : Slot -> Staff -> Timetable -> bool.
Variable is_preferred_time : Slot -> Staff -> bool.
Variable assign_slot : Subject -> component_type -> Slot -> Timetable -> Timetable.
Variable can_reschedule : Subject -> Timetable -> bool.
Variable reschedule_subject : Subject -> Timetable -> Timetable.
Variable empty_timetable : Timetable.

Local Abbreviation score :=
  (calculate_slot_score slot_hour has_consecutive_slots creates_gap
     is_preferred_time).

Local Abbreviation optimal :=
  (find_optimal_slot slot_hour get_component_duration get_available_slots
     is_slot_available has_consecutive_slots creates_gap is_preferred_time).

(** C10: every score is a sum of a subset of {+10, +15, -5, +20}, hence
    lies in [-5, 45]. *)
Theorem slot_score_range (slot : Slot) (ct : component_type) (staff : Staff)
    (tt : Timetable) :
  (exists b1 b2 b3 b4 : bool,
     score slot ct staff tt
     = (if b1 then 10 else 0) + (if b2 then 15 else 0)
       + (if b3 then -5 else 0) + (if b4 then 20 else 0))
  /\ -5 <= score slot ct staff tt <= 45.
Proof.
  split.
  - exists (component_eqb ct lecture && (slot_hour slot <? 12)),
      (has_consecutive_slots slot staff tt), (creates_gap slot staff tt),
      (is_preferred_time slot staff).
    unfold calculate_slot_score.
    destruct (component_eqb ct lecture && (slot_hour slot <? 12)),
             (has_consecutive_slots slot staff tt),
             (creates_gap slot staff tt), (is_preferred_time slot staff);
      reflexivity.
  - unfold calculate_slot_score.
    destruct (component_eqb ct lecture && (slot_hour slot <? 12)),
             (has_consecutive_slots slot staff tt),
             (creates_gap slot staff tt), (is_preferred_time slot staff);
      lia.
Qed.


(** C4 (as amended): [find_optimal_slot] orders candidates by score only.
    The slot it returns is a listed candidate that [is_slot_available]
    accepts, no accepted candidate scores higher, and among the accepted
    candidates of the same score it is the first one in the order of
    [get_available_slots] (the sort is stable; there is no tie-break on
    day, start time, staff or room). *)
Theorem optimal_slot_max_score_first (ct : component_type) (staff : Staff)
    (availability : Availability) (constraints : Constraints)
    (tt : Timetable) (s : Slot) :
  optimal ct staff availability constraints tt = Some s ->
  In s (get_available_slots staff availability constraints)
  /\ is_slot_available s (get_component_duration ct) tt = true
  /\ (forall t, In t (get_available_slots staff availability constraints) ->
        is_slot_available t (get_component_duration ct) tt = true ->
        score t ct staff tt <= score s ct staff tt)
  /\ find (fun t => is_slot_available t (get_component_duration ct) tt
                    && (score t ct staff tt =? score s ct staff tt))
       (get_available_slots staff availability constraints) = Some s.
Proof.
  intro H. unfold find_optimal_slot in H.
  set (cands := get_available_slots staff availability constraints) in *.
  set (mapped := map (fun slot => (slot, score slot ct staff tt)) cands) in H.
  destruct (find _ (sort_by_score_desc mapped)) as [[s' k]|] eqn:F;
    [|discriminate].
  injection H as <-.
  destruct (find_split _ _ _ F) as (l1 & l2 & Hsplit & Hl1 & Hok).
  simpl in Hok.
  assert (Hin : In (s', k) mapped).
  { apply sort_by_score_desc_in. rewrite Hsplit.
    apply in_or_app. right. left. reflexivity. }
  apply in_map_iff in Hin as (t & Ht & Htin).
  injection Ht as E1 E2. subst t k.
  split; [exact Htin|]. split; [exact Hok|]. split.
  - intros u Hu Hoku.
    assert (Hu' : In (u, score u ct staff tt) (sort_by_score_desc mapped)).
    { apply sort_by_score_desc_in, in_map_iff. eauto. }
    rewrite Hsplit in Hu'.
    apply in_app_or in Hu' as [Hu' | [Hu' | Hu']].
    + specialize (Hl1 _ Hu'). simpl in Hl1. congruence.
    + injection Hu' as E _. subst u. lia.
    + pose proof (sort_by_score_desc_sorted mapped) as Hsort.
      rewrite Hsplit in Hsort.
      apply strongly_sorted_after in Hsort.
      pose proof (proj1 (Forall_forall _ _) Hsort _ Hu') as Hge.
      unfold score_ge in Hge. simpl in Hge. exact Hge.
  - rewrite find_hd_filter.
    assert (E : map (fun slot => (slot, score slot ct staff tt))
                  (filter (fun t => is_slot_available t
                                      (get_component_duration ct) tt
                                    && (score t ct staff tt
                                        =? score s' ct staff tt)) cands)
                = filter (fun p => is_slot_available (fst p)
                                     (get_component_duration ct) tt
                                   && has_score (score s' ct staff tt) p)
                    (sort_by_score_desc mapped)).
    { rewrite (filter_andb (fun p => is_slot_available (fst p)
                                       (get_component_duration ct) tt)
                 (has_score (score s' ct staff tt))).
      rewrite sort_by_score_desc_stable.
      rewrite <- (filter_andb (fun p => is_slot_available (fst p)
                                          (get_component_duration ct) tt)
                    (has_score (score s' ct staff tt))).
      unfold mapped. rewrite filter_map_comm. reflexivity. }
    assert (Hhd : hd_error
                    (filter (fun p => is_slot_available (fst p)
                                        (get_component_duration ct) tt
                                      && has_score (score s' ct staff tt) p)
                       (sort_by_score_desc mapped))
                  = Some (s', score s' ct staff tt)).
    { rewrite Hsplit, filter_app, filter_all_false.
      - simpl. rewrite Hok. unfold has_score. simpl. rewrite Z.eqb_refl.
        reflexivity.
      - intros z Hz. rewrite (Hl1 z Hz). reflexivity. }
    rewrite <- E in Hhd.
    destruct (filter _ cands) as [|t' rest]; simpl in Hhd; [discriminate|].
    injection Hhd as ->. reflexivity.
Qed.

Local Abbreviation sched :=
  (schedule_subject subject_id slot_hour get_available_staff
     get_batch_constraints get_component_duration get_available_slots
     is_slot_available has_consecutive_slots creates_gap is_preferred_time
     assign_slot).

Local Abbreviation resolve :=
  (resolve_conflicts subject_eqb can_reschedule reschedule_subject).

Local Abbreviation gloop :=
  (generate_loop subject_id subject_eqb slot_hour get_available_staff
     get_batch_constraints get_component_duration get_available_slots
     is_slot_available has_consecutive_slots creates_gap is_preferred_time
     assign_slot can_reschedule reschedule_subject).

Local Abbreviation proc :=
  (processed subject_id subject_eqb slot_hour get_available_staff
     get_batch_constraints get_component_duration get_available_slots
     is_slot_available has_consecutive_slots creates_gap is_preferred_time
     assign_slot can_reschedule reschedule_subject).

Local Abbreviation placed :=
  (places_all subject_id slot_hour get_available_staff get_batch_constraints
     get_component_duration get_available_slots is_slot_available
     has_consecutive_slots creates_gap is_preferred_time assign_slot).

Local Abbreviation generate :=
  (generate_timetable subject_id subject_eqb slot_hour
     sort_subjects_by_priority get_available_staff get_batch_constraints
     get_component_duration get_available_slots is_slot_available
     has_consecutive_slots creates_gap is_preferred_time assign_slot
     can_reschedule reschedule_subject empty_timetable).

(** With one pending conflict, [resolve_conflicts] either clears it or
    keeps it and reports failure. *)
Lemma resolve_single (x : Subject) (tt : Timetable) :
  exists tt', resolve [x] tt = ([], tt', true)
              \/ resolve [x] tt = ([x], tt', false).
Proof.
  unfold resolve_conflicts. simpl.
  destruct (can_reschedule x tt).
  - simpl. destruct (subject_eqb x x); simpl; eauto.
  - simpl. eauto.
Qed.

(** The shape of a run of the subject loop started with no conflict:
    it ends with a timetable and no conflict, or it stops at one subject
    [x] with the conflict list [[x]], and what follows [x] plays no
    part. *)
Lemma generate_loop_shape (b : BatchId) (sa : StaffAssignments)
    (av : Availability) (ss : list Subject) (tt : Timetable) :
  (exists tt', gloop ss b sa av tt [] = (Some tt', []))
  \/ (exists pre x post, ss = pre ++ x :: post
        /\ gloop ss b sa av tt [] = (None, [x])
        /\ forall post', gloop (pre ++ x :: post') b sa av tt [] = (None, [x])).
Proof.
  revert tt. induction ss as [|x rest IH]; intro tt.
  - left. exists tt. reflexivity.
  - simpl. destruct (sched x b sa av tt) as [ok tt1] eqn:Hs.
    destruct ok.
    + destruct (IH tt1) as [Hl | (pre & y & post & -> & Hrun & Hpost)].
      * left. exact Hl.
      * right. exists (x :: pre), y, post.
        split; [reflexivity|]. split; [exact Hrun|].
        intro post'. simpl. rewrite Hs. apply Hpost.
    + destruct (resolve_single x tt1) as [tt2 [Hr | Hr]]; simpl; rewrite Hr.
      * destruct (IH tt2) as [Hl | (pre & y & post & -> & Hrun & Hpost)].
        -- left. exact Hl.
        -- right. exists (x :: pre), y, post.
           split; [reflexivity|]. split; [exact Hrun|].
           intro post'. simpl. rewrite Hs. simpl. rewrite Hr. apply Hpost.
      * right. exists [], x, rest. split; [reflexivity|].
        split; [reflexivity|].
        intro post'. simpl. rewrite Hs. simpl. rewrite Hr. reflexivity.
Qed.

(** The subject loop started with no conflict either gets through every
    subject (each scheduled, or failed and cleared by [resolve_conflicts])
    and returns the timetable it reached with no conflict, or it gets
    through a prefix [pre], then a subject [x] fails [schedule_subject]
    and [resolve_conflicts] keeps it, and the loop stops there with no
    timetable and the conflict list [[x]], whatever follows [x]. *)
Lemma generate_loop_runs (b : BatchId) (sa : StaffAssignments)
    (av : Availability) (ss : list Subject) (tt : Timetable) :
  (exists tt', proc b sa av ss tt tt' /\ gloop ss b sa av tt [] = (Some tt', []))
  \/ (exists pre x post tt0 tt1 tt2,
        ss = pre ++ x :: post
        /\ proc b sa av pre tt tt0
        /\ sched x b sa av tt0 = (false, tt1)
        /\ resolve [x] tt1 = ([x], tt2, false)
        /\ gloop ss b sa av tt [] = (None, [x])
        /\ forall post', gloop (pre ++ x :: post') b sa av tt [] = (None, [x])).
Proof.
  revert tt. induction ss as [|x rest IH]; intro tt.
  - left. exists tt. split; [constructor | reflexivity].
  - simpl. destruct (sched x b sa av tt) as [ok tt1] eqn:Hs.
    destruct ok.
    + destruct (IH tt1) as [(tt' & Hp & Hl)
                          | (pre & y & post & tt0 & ta & tb & -> & Hp & Hy
                             & Hr & Hrun & Hpost)].
      * left. exists tt'. split; [eapply processed_scheduled; eauto|].
        exact Hl.
      * right. exists (x :: pre), y, post, tt0, ta, tb.
        split; [reflexivity|]. split; [eapply processed_scheduled; eauto|].
        do 3 (split; [assumption|]).
        intro post'. simpl. rewrite Hs. apply Hpost.
    + destruct (resolve_single x tt1) as [tt2 [Hr | Hr]]; simpl; rewrite Hr.
      * destruct (IH tt2) as [(tt' & Hp & Hl)
                            | (pre & y & post & tt0 & ta & tb & -> & Hp & Hy
                               & Hr' & Hrun & Hpost)].
        -- left. exists tt'. split; [eapply processed_resolved; eauto|].
           exact Hl.
        -- right. exists (x :: pre), y, post, tt0, ta, tb.
           split; [reflexivity|]. split; [eapply processed_resolved; eauto|].
           do 3 (split; [assumption|]).
           intro post'. simpl. rewrite Hs. simpl. rewrite Hr. apply Hpost.
      * right. exists [], x, rest, tt, tt1, tt2.
        split; [reflexivity|]. split; [constructor|].
        split; [exact Hs|]. split; [exact Hr|]. split; [reflexivity|].
        intro post'. simpl. rewrite Hs. simpl. rewrite Hr. reflexivity.
Qed.

(** C2 (as amended): a run of [generate_timetable] ends in one of two
    ways.  Either it gets through every subject of the sorted list, each
    one scheduled by [schedule_subject] or failed and then cleared by
    [resolve_conflicts], and returns the timetable so reached with an
    empty conflict list; or it gets through a prefix [pre], then a
    subject [x] fails [schedule_subject] and [resolve_conflicts] does not
    clear it: the run stops at [x] and returns no timetable ([None]) with
    the conflict list [[x]], whatever subjects follow [x]. *)
Theorem generate_outcomes (b : BatchId) (subjects : list Subject)
    (sa : StaffAssignments) (av : Availability) :
  (exists tt,
     processed subject_id subject_eqb slot_hour get_available_staff
       get_batch_constraints get_component_duration get_available_slots
       is_slot_available has_consecutive_slots creates_gap is_preferred_time
       assign_slot can_reschedule reschedule_subject b sa av
       (sort_subjects_by_priority subjects) empty_timetable tt
     /\ (generate_timetable subject_id subject_eqb slot_hour
            sort_subjects_by_priority get_available_staff
            get_batch_constraints get_component_duration get_available_slots
            is_slot_available has_consecutive_slots creates_gap
            is_preferred_time assign_slot can_reschedule reschedule_subject
            empty_timetable b subjects sa av) = (Some tt, []))
  \/ (exists pre x post tt0 tt1 tt2,
        sort_subjects_by_priority subjects = pre ++ x :: post
        /\ processed subject_id subject_eqb slot_hour get_available_staff
             get_batch_constraints get_component_duration get_available_slots
             is_slot_available has_consecutive_slots creates_gap
             is_preferred_time assign_slot can_reschedule reschedule_subject
             b sa av pre empty_timetable tt0
        /\ schedule_subject subject_id slot_hour get_available_staff
             get_batch_constraints get_component_duration get_available_slots
             is_slot_available has_consecutive_slots creates_gap
             is_preferred_time assign_slot x b sa av tt0 = (false, tt1)
        /\ resolve_conflicts subject_eqb can_reschedule reschedule_subject
             [x] tt1 = ([x], tt2, false)
        /\ (generate_timetable subject_id subject_eqb slot_hour
            sort_subjects_by_priority get_available_staff
            get_batch_constraints get_component_duration get_available_slots
            is_slot_available has_consecutive_slots creates_gap
            is_preferred_time assign_slot can_reschedule reschedule_subject
            empty_timetable b subjects sa av) = (None, [x])
        /\ forall post',
             generate_loop subject_id subject_eqb slot_hour
               get_available_staff get_batch_constraints
               get_component_duration get_available_slots is_slot_available
               has_consecutive_slots creates_gap is_preferred_time
               assign_slot can_reschedule reschedule_subject
               (pre ++ x :: post') b sa av empty_timetable [] = (None, [x])).
Proof.
  unfold generate_timetable.
  destruct (generate_loop_runs b sa av (sort_subjects_by_priority subjects)
              empty_timetable) as [H | H].
  - left. exact H.
  - right. exact H.
Qed.

(** C5 (as amended): the conflict list holds whole subjects, not
    components.  When a run returns no timetable, the conflict list is
    the single subject [x] it stopped at, and the subjects after [x] are
    never looked at: replacing them changes nothing, so their components
    are neither in a returned timetable nor in the conflict list. *)
Theorem generate_abort_skips_rest (b : BatchId) (subjects : list Subject)
    (sa : StaffAssignments) (av : Availability) (conflicts : list Subject) :
  (generate_timetable subject_id subject_eqb slot_hour
            sort_subjects_by_priority get_available_staff
            get_batch_constraints get_component_duration get_available_slots
            is_slot_available has_consecutive_slots creates_gap
            is_preferred_time assign_slot can_reschedule reschedule_subject
            empty_timetable b subjects sa av) = (None, conflicts) ->
  exists pre x post,
    sort_subjects_by_priority subjects = pre ++ x :: post
    /\ conflicts = [x]
    /\ forall post',
         generate_loop subject_id subject_eqb slot_hour get_available_staff
           get_batch_constraints get_component_duration get_available_slots
           is_slot_available has_consecutive_slots creates_gap
           is_preferred_time assign_slot can_reschedule reschedule_subject
           (pre ++ x :: post') b sa av empty_timetable [] = (None, [x]).
Proof.
  unfold generate_timetable. intro H.
  destruct (generate_loop_shape b sa av (sort_subjects_by_priority subjects)
              empty_timetable) as [[tt' H'] | (pre & x & post & E & H' & Hpost)].
  - congruence.
  - exists pre, x, post. split; [exact E|]. split; [congruence | exact Hpost].
Qed.

(** Along a run in which every component search succeeds, each subject
    is scheduled and the loop returns the timetable with all of them
    assigned and no conflict. *)
Lemma places_all_loop (b : BatchId) (sa : StaffAssignments)
    (av : Availability) (ss : list Subject) (tt tt' : Timetable) :
  placed b sa av ss tt tt' -> gloop ss b sa av tt [] = (Some tt', []).
Proof.
  induction 1 as [tt0 | x rest tt0 s1 s2 s3 tt' E1 E2 E3 Hp IH].
  - reflexivity.
  - simpl.
    assert (Hs : sched x b sa av tt0
                 = (true, assign_slot x lab s3
                            (assign_slot x tutorial s2
                               (assign_slot x lecture s1 tt0)))).
    { unfold schedule_subject, schedule_components, schedule_component.
      rewrite E1, E2, E3. reflexivity. }
    rewrite Hs. exact IH.
Qed.

(** C8 (as amended): [generate_timetable] validates nothing before it
    starts placing: durations, batch windows and staff assignments are
    only seen through the helpers.  Whenever, along the run, every
    search of [find_optimal_slot] (lecture, tutorial, lab of each subject
    in the sorted order, each seeing the slots assigned before it) finds
    a slot, the run returns the timetable with all of them assigned and
    an empty conflict list, with no configuration error. *)
Theorem generate_without_validation (b : BatchId) (subjects : list Subject)
    (sa : StaffAssignments) (av : Availability) (tt : Timetable) :
  places_all subject_id slot_hour get_available_staff get_batch_constraints
    get_component_duration get_available_slots is_slot_available
    has_consecutive_slots creates_gap is_preferred_time assign_slot
    b sa av (sort_subjects_by_priority subjects) empty_timetable tt ->
  (generate_timetable subject_id subject_eqb slot_hour
            sort_subjects_by_priority get_available_staff
            get_batch_constraints get_component_duration get_available_slots
            is_slot_available has_consecutive_slots creates_gap
            is_preferred_time assign_slot can_reschedule reschedule_subject
            empty_timetable b subjects sa av) = (Some tt, []).
Proof.
  intro Hp. unfold generate_timetable. exact (places_all_loop _ _ _ _ _ _ Hp).
Qed.

End Facts.
End SchedulerFacts.

(** ** Runs of the pseudocode on the concrete instance *)

Module ToyRuns.
Import Toy.

(** C2 counterexample: subject 2 is well formed (positive durations, one
    assigned staff member) but staff 7's three free slots are taken by
    subject 1; the run returns no timetable at all. *)
Lemma unplaceable_subject_drops_timetable :
  generate_timetable 0%nat [sub1; sub2] assignments monday_slots = (None, [sub2]).
Proof. vm_compute. reflexivity. Qed.

(** C5 counterexample: the run stops at subject 2; subjects 1 and 3 are
    neither in a returned timetable (there is none) nor in the conflict
    list. *)
Lemma aborted_run_loses_subjects :
  generate_timetable 0%nat [sub1; sub2; sub3] assignments monday_slots
    = (None, [sub2])
  /\ ~ In sub1 [sub2] /\ ~ In sub3 [sub2].
Proof.
  split; [vm_compute; reflexivity|].
  split; intros [H | []]; discriminate.
Qed.

Lemma generate_abort_skips_rest_witness :
  exists pre x post,
    [sub1; sub2; sub3] = pre ++ x :: post /\ [sub2] = [x]
    /\ forall post',
         Scheduler.generate_loop subj_id subject_eqb s_hour
           get_available_staff get_batch_constraints get_component_duration
           get_available_slots is_slot_available no_consecutive no_gap
           no_preference assign_slot cannot_reschedule keep_timetable
           (pre ++ x :: post') 0%nat assignments monday_slots [] []
         = (None, [x]).
Proof.
  apply (SchedulerFacts.generate_abort_skips_rest subj_id subject_eqb s_hour
           (fun l => l) get_available_staff get_batch_constraints
           get_component_duration get_available_slots is_slot_available
           no_consecutive no_gap no_preference assign_slot cannot_reschedule
           keep_timetable [] 0%nat [sub1; sub2; sub3] assignments
           monday_slots [sub2]).
  vm_compute. reflexivity.
Defined.

(** Score of a candidate on the concrete instance. *)
Lemma toy_scores :
  Scheduler.calculate_slot_score s_hour no_consecutive no_gap no_preference
    tue_9 tutorial [7%nat] [] = 0
  /\ Scheduler.calculate_slot_score s_hour no_consecutive no_gap
       no_preference mon_9 tutorial [7%nat] [] = 0.
Proof. split; reflexivity. Qed.

(** C4 counterexample: two free candidates of equal score compare equal;
    the Tuesday one, listed first, is chosen over the Monday one, which
    comes earlier in the canonical day order. *)
Lemma equal_scores_keep_listing_order :
  find_optimal_slot tutorial [7%nat] [tue_9; mon_9] tt [] = Some tue_9
  /\ is_slot_available mon_9 60 [] = true
  /\ Scheduler.calculate_slot_score s_hour no_consecutive no_gap
       no_preference tue_9 tutorial [7%nat] []
     = Scheduler.calculate_slot_score s_hour no_consecutive no_gap
         no_preference mon_9 tutorial [7%nat] []
  /\ (day_index (s_day mon_9) < day_index (s_day tue_9))%nat.
Proof. split; [reflexivity|]. split; [reflexivity|]. split; [reflexivity | simpl; lia]. Qed.

Lemma optimal_slot_max_score_first_witness :
  In tue_9 (get_available_slots [7%nat] [tue_9; mon_9] tt)
  /\ is_slot_available tue_9 (get_component_duration tutorial) [] = true
  /\ (forall t, In t (get_available_slots [7%nat] [tue_9; mon_9] tt) ->
        is_slot_available t (get_component_duration tutorial) [] = true ->
        Scheduler.calculate_slot_score s_hour no_consecutive no_gap
          no_preference t tutorial [7%nat] []
        <= Scheduler.calculate_slot_score s_hour no_consecutive no_gap
             no_preference tue_9 tutorial [7%nat] [])
  /\ find (fun t => is_slot_available t (get_component_duration tutorial) []
                    && (Scheduler.calculate_slot_score s_hour no_consecutive
                          no_gap no_preference t tutorial [7%nat] []
                        =? Scheduler.calculate_slot_score s_hour
                             no_consecutive no_gap no_preference tue_9
                             tutorial [7%nat] []))
       (get_available_slots [7%nat] [tue_9; mon_9] tt) = Some tue_9.
Proof.
  apply (SchedulerFacts.optimal_slot_max_score_first s_hour
           get_component_duration get_available_slots is_slot_available
           no_consecutive no_gap no_preference tutorial [7%nat]
           [tue_9; mon_9] tt [] tue_9).
  reflexivity.
Defined.



(** C8 counterexample: a subject whose durations are all zero is not
    refused; its three components are placed and the run returns a
    timetable with no conflict. *)
Lemma zero_duration_subject_scheduled :
  lecture_duration sub_zero = 0 /\ tutorial_duration sub_zero = 0
  /\ lab_duration sub_zero = 0
  /\ generate_timetable 0%nat [sub_zero] assignments monday_slots
     = (Some [(1%nat, lecture, mkSlot monday 9 7 1);
              (1%nat, tutorial, mkSlot monday 10 7 1);
              (1%nat, lab, mkSlot monday 11 7 1)], []).
Proof.
  split; [reflexivity|]. split; [reflexivity|]. split; [reflexivity|].
  vm_compute. reflexivity.
Qed.

(** Staff 7 free on Monday at 9, 10 and 11 (a slot is taken once used):
    along the run, the lecture, tutorial and lab of the zero-duration
    subject find 9, 10 and 11, and the run returns them with no
    conflict. *)
Lemma generate_without_validation_witness :
  Scheduler.places_all subj_id s_hour get_available_staff
    get_batch_constraints get_component_duration get_available_slots
    is_slot_available no_consecutive no_gap no_preference assign_slot
    0%nat assignments monday_slots [sub_zero] []
    [(1%nat, lecture, mkSlot monday 9 7 1);
     (1%nat, tutorial, mkSlot monday 10 7 1);
     (1%nat, lab, mkSlot monday 11 7 1)]
  /\ generate_timetable 0%nat [sub_zero] assignments monday_slots
     = (Some [(1%nat, lecture, mkSlot monday 9 7 1);
              (1%nat, tutorial, mkSlot monday 10 7 1);
              (1%nat, lab, mkSlot monday 11 7 1)], []).
Proof.
  assert (Hp : Scheduler.places_all subj_id s_hour get_available_staff
    get_batch_constraints get_component_duration get_available_slots
    is_slot_available no_consecutive no_gap no_preference assign_slot
    0%nat assignments monday_slots [sub_zero] []
    [(1%nat, lecture, mkSlot monday 9 7 1);
     (1%nat, tutorial, mkSlot monday 10 7 1);
     (1%nat, lab, mkSlot monday 11 7 1)]).
  { eapply Scheduler.places_cons with (s1 := mkSlot monday 9 7 1)
      (s2 := mkSlot monday 10 7 1) (s3 := mkSlot monday 11 7 1);
      [vm_compute; reflexivity | vm_compute; reflexivity
      | vm_compute; reflexivity |].
    apply Scheduler.places_nil. }
  split; [exact Hp|].
  exact (SchedulerFacts.generate_without_validation subj_id subject_eqb
           s_hour (fun l => l) get_available_staff get_batch_constraints
           get_component_duration get_available_slots is_slot_available
           no_consecutive no_gap no_preference assign_slot cannot_reschedule
           keep_timetable [] 0%nat [sub_zero] assignments monday_slots _ Hp).
Defined.

End ToyRuns.

(** ** Further properties of the scheduling pseudocode *)

Module SchedulerExtra.
Import Scheduler.

Lemma remove_first_after {B : Type} (eqb : B -> B -> bool) (p r : list B)
    (x : B) :
  (forall z, In z p -> eqb z x = false) -> eqb x x = true ->
  remove_first eqb x (p ++ x :: r) = p ++ r.
Proof.
  induction p as [|y p IH]; simpl; intros Hp Hx.
  - rewrite Hx. reflexivity.
  - rewrite (Hp y (or_introl eq_refl)). f_equal.
    apply IH; [intros z Hz; apply Hp; now right | exact Hx].
Qed.

Lemma remove_first_incl {B : Type} (eqb : B -> B -> bool) (x : B)
    (l : list B) : incl (remove_first eqb x l) l.
Proof.
  induction l as [|y r IH]; simpl; [apply incl_refl|].
  destruct (eqb y x).
  - intros z Hz. now right.
  - intros z [<- | Hz]; [now left | right; now apply IH].
Qed.

Lemma odd_positions_empty {B : Type} (l : list B) :
  Nat.eqb (length (odd_positions l)) 0 = (length l <=? 1)%nat.
Proof. destruct l as [|x [|y r]]; reflexivity. Qed.

Section Extra.

Context {Subject SubjectId Staff StaffAssignments Availability BatchId
         Constraints Slot Timetable : Type}.

Variable subject_id : Subject -> SubjectId.
Variable subject_eqb : Subject -> Subject -> bool.
Variable slot_hour : Slot -> Z.
Variable get_available_staff : SubjectId -> StaffAssignments -> Staff.
Variable get_batch_constraints : BatchId -> Constraints.
Variable get_component_duration : component_type -> Z.
Variable get_available_slots : Staff -> Availability -> Constraints -> list Slot.
Variable is_slot_available : Slot -> Z -> Timetable -> bool.
Variable has_consecutive_slots : Slot -> Staff -> Timetable -> bool.
Variable creates_gap : Slot -> Staff -> Timetable -> bool.
Variable is_preferred_time : Slot -> Staff -> bool.
Variable assign_slot : Subject -> component_type -> Slot -> Timetable -> Timetable.
Variable can_reschedule : Subject -> Timetable -> bool.
Variable reschedule_subject : Subject -> Timetable -> Timetable.

Local Abbreviation optimal :=
  (find_optimal_slot slot_hour get_component_duration get_available_slots
     is_slot_available has_consecutive_slots creates_gap is_preferred_time).

(** [find_optimal_slot] finds nothing exactly when [is_slot_available]
    refuses every candidate [get_available_slots] lists. *)
Theorem find_optimal_slot_none_iff (ct : component_type) (staff : Staff)
    (availability : Availability) (constraints : Constraints)
    (tt : Timetable) :
  find_optimal_slot slot_hour get_component_duration get_available_slots
    is_slot_available has_consecutive_slots creates_gap is_preferred_time
    ct staff availability constraints tt = None
  <-> forall t, In t (get_available_slots staff availability constraints) ->
        is_slot_available t (get_component_duration ct) tt = false.
Proof.
  unfold find_optimal_slot.
  set (mapped := map _ _).
  split.
  - destruct (find _ (sort_by_score_desc mapped)) as [[s k]|] eqn:F;
      [discriminate|].
    intros _ t Ht.
    assert (Hs : In (t, calculate_slot_score slot_hour has_consecutive_slots
                          creates_gap is_preferred_time t ct staff tt)
                   (sort_by_score_desc mapped)).
    { apply SortFacts.sort_by_score_desc_in, in_map_iff. eauto. }
    exact (find_none _ _ F _ Hs).
  - intro Hall.
    destruct (find _ (sort_by_score_desc mapped)) as [[s k]|] eqn:F;
      [|reflexivity].
    apply find_some in F as [Hin Hok]. simpl in Hok.
    apply SortFacts.sort_by_score_desc_in, in_map_iff in Hin
      as (t & Ht & Htin).
    injection Ht as <- _. rewrite (Hall t Htin) in Hok. discriminate.
Qed.

(** [schedule_subject] succeeds exactly when lecture, tutorial and lab
    each find a slot in turn, each search seeing the slots assigned
    before it, and the timetable then holds the three assignments. *)
Theorem schedule_subject_success (x : Subject) (b : BatchId)
    (sa : StaffAssignments) (av : Availability) (tt tt' : Timetable) :
  schedule_subject subject_id slot_hour get_available_staff
    get_batch_constraints get_component_duration get_available_slots
    is_slot_available has_consecutive_slots creates_gap is_preferred_time
    assign_slot x b sa av tt = (true, tt')
  <-> exists s1 s2 s3,
      optimal lecture (get_available_staff (subject_id x) sa) av
        (get_batch_constraints b) tt = Some s1
      /\ optimal tutorial (get_available_staff (subject_id x) sa) av
           (get_batch_constraints b) (assign_slot x lecture s1 tt) = Some s2
      /\ optimal lab (get_available_staff (subject_id x) sa) av
           (get_batch_constraints b)
           (assign_slot x tutorial s2 (assign_slot x lecture s1 tt)) = Some s3
      /\ tt' = assign_slot x lab s3
                 (assign_slot x tutorial s2 (assign_slot x lecture s1 tt)).
Proof.
  unfold schedule_subject, schedule_components, schedule_component.
  split.
  - destruct (optimal lecture _ av _ tt) as [s1|] eqn:E1; [|discriminate].
    destruct (optimal tutorial _ av _ _) as [s2|] eqn:E2; [|discriminate].
    destruct (optimal lab _ av _ _) as [s3|] eqn:E3; [|discriminate].
    intros [= <-]. exists s1, s2, s3. auto.
  - intros (s1 & s2 & s3 & E1 & E2 & E3 & ->).
    rewrite E1, E2, E3. reflexivity.
Qed.

(** When [schedule_subject] fails, the components placed before the
    failing one stay in the timetable: nothing is undone. *)
Theorem schedule_subject_failure_keeps_placed (x : Subject) (b : BatchId)
    (sa : StaffAssignments) (av : Availability) (tt tt' : Timetable) :
  schedule_subject subject_id slot_hour get_available_staff
    get_batch_constraints get_component_duration get_available_slots
    is_slot_available has_consecutive_slots creates_gap is_preferred_time
    assign_slot x b sa av tt = (false, tt') ->
  (optimal lecture (get_available_staff (subject_id x) sa) av
     (get_batch_constraints b) tt = None /\ tt' = tt)
  \/ (exists s1,
        optimal lecture (get_available_staff (subject_id x) sa) av
          (get_batch_constraints b) tt = Some s1
        /\ optimal tutorial (get_available_staff (subject_id x) sa) av
             (get_batch_constraints b) (assign_slot x lecture s1 tt) = None
        /\ tt' = assign_slot x lecture s1 tt)
  \/ (exists s1 s2,
        optimal lecture (get_available_staff (subject_id x) sa) av
          (get_batch_constraints b) tt = Some s1
        /\ optimal tutorial (get_available_staff (subject_id x) sa) av
             (get_batch_constraints b) (assign_slot x lecture s1 tt) = Some s2
        /\ optimal lab (get_available_staff (subject_id x) sa) av
             (get_batch_constraints b)
             (assign_slot x tutorial s2 (assign_slot x lecture s1 tt)) = None
        /\ tt' = assign_slot x tutorial s2 (assign_slot x lecture s1 tt)).
Proof.
  unfold schedule_subject, schedule_components, schedule_component.
  destruct (optimal lecture _ av _ tt) as [s1|] eqn:E1.
  - destruct (optimal tutorial _ av _ _) as [s2|] eqn:E2.
    + destruct (optimal lab _ av _ _) as [s3|] eqn:E3; [discriminate|].
      intros [= <-]. right. right. exists s1, s2. auto.
    + intros [= <-]. right. left. exists s1. auto.
  - intros [= <-]. left. auto.
Qed.

Lemma resolve_loop_incl (fuel i : nat) (l : list Subject) (tt : Timetable) :
  incl (fst (resolve_loop subject_eqb can_reschedule reschedule_subject
               fuel i l tt)) l.
Proof.
  revert i l tt. induction fuel as [|f IH]; intros i l tt; simpl.
  - apply incl_refl.
  - destruct (nth_error l i) as [c|]; [|apply incl_refl].
    destruct (can_reschedule c tt).
    + eapply incl_tran; [apply IH | apply remove_first_incl].
    + apply IH.
Qed.

(** [resolve_conflicts] never adds a conflict: what it returns is drawn
    from the list it was given, and it reports success exactly when that
    list has become empty. *)
Theorem resolve_conflicts_shrinks (l : list Subject) (tt : Timetable) :
  incl (fst (fst (resolve_conflicts subject_eqb can_reschedule
                     reschedule_subject l tt))) l
  /\ snd (resolve_conflicts subject_eqb can_reschedule reschedule_subject l tt)
     = Nat.eqb (length (fst (fst (resolve_conflicts subject_eqb can_reschedule
                                    reschedule_subject l tt)))) 0.
Proof.
  unfold resolve_conflicts.
  pose proof (resolve_loop_incl (length l) 0 l tt) as H.
  destruct (resolve_loop _ _ _ _ _ l tt) as [cs tt']. simpl in *.
  split; [exact H | reflexivity].
Qed.

Lemma resolve_loop_skips (fuel : nat) (p r : list Subject) (tt : Timetable) :
  (forall c t, can_reschedule c t = true) ->
  (forall a c, subject_eqb a c = true <-> a = c) ->
  NoDup (p ++ r) -> (length r <= fuel)%nat ->
  exists tt', resolve_loop subject_eqb can_reschedule reschedule_subject
                fuel (length p) (p ++ r) tt = (p ++ odd_positions r, tt').
Proof.
  intros Hcan Heq. revert p r tt.
  induction fuel as [|f IH]; intros p r tt Hnd Hlen.
  - destruct r; [|simpl in Hlen; lia].
    exists tt. simpl. rewrite app_nil_r. reflexivity.
  - destruct r as [|x r1].
    + exists tt. simpl. rewrite !app_nil_r.
      replace (nth_error p (length p)) with (@None Subject)
        by (symmetry; apply nth_error_None; lia).
      reflexivity.
    + simpl. rewrite nth_error_app2, Nat.sub_diag by lia. simpl.
      rewrite Hcan.
      rewrite remove_first_after.
      2:{ intros z Hz. destruct (subject_eqb z x) eqn:E; [|reflexivity].
          apply Heq in E. subst z. apply NoDup_remove_2 in Hnd.
          exfalso. apply Hnd. apply in_or_app. now left. }
      2:{ now apply Heq. }
      apply NoDup_remove_1 in Hnd.
      destruct r1 as [|y r2].
      * exists (reschedule_subject x tt). rewrite !app_nil_r.
        destruct f; cbn [resolve_loop]; [reflexivity|].
        replace (nth_error p (S (length p))) with (@None Subject)
          by (symmetry; apply nth_error_None; lia).
        reflexivity.
      * replace (S (length p)) with (length (p ++ [y]))
          by (rewrite length_app; simpl; lia).
        replace (p ++ y :: r2) with ((p ++ [y]) ++ r2) in *
          by (rewrite <- app_assoc; reflexivity).
        destruct (IH (p ++ [y]) r2 (reschedule_subject x tt) Hnd)
          as [tt' Htt']; [simpl in Hlen; lia|].
        exists tt'. rewrite Htt', <- app_assoc. reflexivity.
Qed.

(** [resolve_conflicts] removes from the list it iterates over, so the
    Python iterator skips the element after each removal: when every
    conflict can be rescheduled (and the conflicts are distinct), only
    every other one is handled, the ones at odd positions stay, and
    success is reported only for a list of at most one conflict. *)
Theorem resolve_conflicts_skips_every_other (l : list Subject)
    (tt : Timetable) :
  (forall c t, can_reschedule c t = true) ->
  (forall a c, subject_eqb a c = true <-> a = c) ->
  NoDup l ->
  exists tt', resolve_conflicts subject_eqb can_reschedule reschedule_subject
                l tt = (odd_positions l, tt', (length l <=? 1)%nat).
Proof.
  intros Hcan Heq Hnd. unfold resolve_conflicts.
  destruct (resolve_loop_skips (length l) [] l tt Hcan Heq Hnd (le_n _))
    as [tt' H].
  simpl in H. rewrite H. exists tt'. rewrite odd_positions_empty.
  reflexivity.
Qed.

End Extra.
End SchedulerExtra.

(** ** Further properties of the SQL triggers *)

Module TriggerExtra.
Import Timetables.

Lemma filter_nil_iff {A : Type} (f : A -> bool) (l : list A) :
  length (filter f l) = 0%nat <-> forall x, In x l -> f x = false.
Proof.
  induction l as [|y r IH]; simpl; [split; [intros _ x []|reflexivity]|].
  destruct (f y) eqn:Fy; simpl; split.
  - discriminate.
  - intro H. rewrite (H y (or_introl eq_refl)) in Fy. discriminate.
  - intros H x [<- | Hx]; [exact Fy | now apply IH].
  - intro H. apply IH. intros x Hx. apply H. now right.
Qed.

(** For well-formed intervals (start not after end) the trigger's three
    [BETWEEN] tests amount to the intersection of two closed intervals:
    touching endpoints count as an overlap. *)
Theorem trigger_overlap_closed (nw r : row) :
  start_time nw <= end_time nw -> start_time r <= end_time r ->
  trigger_overlap nw r
  = (start_time nw <=? end_time r) && (start_time r <=? end_time nw).
Proof.
  intros Hn Hr. unfold trigger_overlap, between.
  destruct (Z.leb_spec (start_time r) (start_time nw)),
           (Z.leb_spec (start_time nw) (end_time r)),
           (Z.leb_spec (start_time r) (end_time nw)),
           (Z.leb_spec (end_time nw) (end_time r)),
           (Z.leb_spec (start_time nw) (start_time r));
    simpl; try reflexivity; exfalso; lia.
Qed.

(** [check_timetable_conflicts] lets a row through exactly when no other
    row (different [id]) on the same day that shares its staff member or
    its batch overlaps it in the trigger's sense. *)
Theorem check_timetable_conflicts_proceed_iff (tbl : list row) (nw : row) :
  check_timetable_conflicts tbl nw = Proceed
  <-> forall r, In r tbl -> day r = day nw -> id r <> id nw ->
      staff_id r = staff_id nw \/ batch_id r = batch_id nw ->
      trigger_overlap nw r = false.
Proof.
  unfold check_timetable_conflicts, staff_conflict_count, batch_conflict_count.
  set (fs := fun r => (staff_id r =? staff_id nw) && day_eqb (day r) (day nw)
                      && negb (id r =? id nw) && trigger_overlap nw r).
  set (fb := fun r => (batch_id r =? batch_id nw) && day_eqb (day r) (day nw)
                      && negb (id r =? id nw) && trigger_overlap nw r).
  assert (Key : forall (g : Z -> Z -> bool) (sel : row -> Z) r,
             ((g (sel r) (sel nw) && day_eqb (day r) (day nw)
               && negb (id r =? id nw) && trigger_overlap nw r) = true
              <-> g (sel r) (sel nw) = true /\ day r = day nw /\ id r <> id nw
                  /\ trigger_overlap nw r = true)).
  { intros g sel r. rewrite !andb_true_iff, negb_true_iff, Z.eqb_neq,
      day_eqb_true. tauto. }
  destruct (Nat.ltb_spec 0 (length (filter fs tbl))) as [Hs|Hs];
  [|destruct (Nat.ltb_spec 0 (length (filter fb tbl))) as [Hb|Hb]].
  - split; [discriminate|]. intro H. exfalso.
    destruct (filter fs tbl) as [|r fr] eqn:F; [simpl in Hs; lia|].
    assert (Hr : In r (filter fs tbl)) by (rewrite F; now left).
    apply filter_In in Hr as [Hin Hr].
    apply (Key Z.eqb staff_id) in Hr as (Hst & Hd & Hi & Ho).
    apply Z.eqb_eq in Hst.
    rewrite (H r Hin Hd Hi (or_introl Hst)) in Ho. discriminate.
  - split; [discriminate|]. intro H. exfalso.
    destruct (filter fb tbl) as [|r fr] eqn:F; [simpl in Hb; lia|].
    assert (Hr : In r (filter fb tbl)) by (rewrite F; now left).
    apply filter_In in Hr as [Hin Hr].
    apply (Key Z.eqb batch_id) in Hr as (Hst & Hd & Hi & Ho).
    apply Z.eqb_eq in Hst.
    rewrite (H r Hin Hd Hi (or_intror Hst)) in Ho. discriminate.
  - split; [intros _|reflexivity].
    assert (Hs0 : length (filter fs tbl) = 0%nat) by lia.
    assert (Hb0 : length (filter fb tbl) = 0%nat) by lia.
    rewrite filter_nil_iff in Hs0, Hb0.
    intros r Hin Hd Hi Hsb.
    destruct (trigger_overlap nw r) eqn:Ho; [exfalso|reflexivity].
    destruct Hsb as [Hst | Hbt].
    + assert (fs r = true) as E.
      { apply (Key Z.eqb staff_id). rewrite Z.eqb_eq. auto. }
      rewrite (Hs0 r Hin) in E. discriminate.
    + assert (fb r = true) as E.
      { apply (Key Z.eqb batch_id). rewrite Z.eqb_eq. auto. }
      rewrite (Hb0 r Hin) in E. discriminate.
Qed.

End TriggerExtra.

Module AvailabilityExtra.
Import Availability.

(** A staff member with no assignment (or whose batch is missing) has no
    window to respect: [validate_availability_times] then only checks that
    the start comes before the end. *)
Theorem validate_without_batch (bs : list batch)
    (sas : list staff_assignment) (nw : availability) :
  lookup_batch bs (first_assignment_batch sas (av_staff_id nw)) = None ->
  validate_availability_times bs sas nw
  = if av_end_time nw <=? av_start_time nw
    then Signal "Start time must be before end time"%string
    else Proceed.
Proof.
  intro H. unfold validate_availability_times. rewrite H.
  destruct (availability_type_of nw); reflexivity.
Qed.

(** An accepted availability row starts before it ends and, when the
    staff member's batch is found, respects every non-[NULL] bound of the
    batch's weekday window for type [weekday] and of its weekend window
    for both [weekend] and [both] (a [NULL] bound is not checked); and
    conversely. *)
Theorem validate_proceed_iff (bs : list batch) (sas : list staff_assignment)
    (nw : availability) :
  validate_availability_times bs sas nw = Proceed
  <-> av_start_time nw < av_end_time nw
      /\ forall b,
         lookup_batch bs (first_assignment_batch sas (av_staff_id nw)) = Some b ->
         (availability_type_of nw = weekday ->
          (forall ws, weekday_start_time b = Some ws -> ws <= av_start_time nw)
          /\ (forall we, weekday_end_time b = Some we -> av_end_time nw <= we))
         /\ (availability_type_of nw <> weekday ->
             (forall ws, weekend_start_time b = Some ws ->
                         ws <= av_start_time nw)
             /\ (forall we, weekend_end_time b = Some we ->
                            av_end_time nw <= we)).
Proof.
  unfold validate_availability_times, sql_lt, sql_gt.
  destruct (lookup_batch bs _) as [b|] eqn:Hb;
  [ destruct (availability_type_of nw) eqn:Ht;
    [ destruct (weekday_start_time b) as [ws|] eqn:Ews,
               (weekday_end_time b) as [we|] eqn:Ewe
    | destruct (weekend_start_time b) as [ws|] eqn:Ews,
               (weekend_end_time b) as [we|] eqn:Ewe
    | destruct (weekend_start_time b) as [ws|] eqn:Ews,
               (weekend_end_time b) as [we|] eqn:Ewe ]
  | destruct (availability_type_of nw) ]; simpl;
  repeat match goal with
         | |- context [?x <? ?y] => destruct (Z.ltb_spec x y)
         | |- context [?x <=? ?y] => destruct (Z.leb_spec x y)
         end; simpl; split; intro Hv;
  first
    [ discriminate
    | reflexivity
    | split; [lia|]; intros ? E;
      first [ discriminate E
            | injection E as <-; split; intro Hty; try congruence;
              split; intros z Ez; rewrite ?Ews, ?Ewe in Ez;
              try discriminate Ez; injection Ez as <-; lia ]
    | exfalso; destruct Hv as [Hlt Hall];
      try (destruct (Hall _ eq_refl) as [Hw He];
           first [ specialize (Hw eq_refl) as [Hb1 Hb2]
                 | specialize (He ltac:(discriminate)) as [Hb1 Hb2] ];
           try specialize (Hb1 _ Ews); try specialize (Hb2 _ Ewe));
      lia ].
Qed.

End AvailabilityExtra.

Module AuditExtra.
Import Timetables Audit.

(** [audit_timetable_changes] writes one log entry, with the old and new
    start, end, staff and room, exactly when the start, the end or the
    staff member changed, or the room changed between two non-[NULL]
    values; a room set from or to [NULL], or a change of day, subject,
    batch or component alone, writes nothing. *)
Theorem audit_logs_iff (old nw : row) (u : option Z) (now : Z) :
  (audit_timetable_changes old nw u now = []
   /\ start_time old = start_time nw /\ end_time old = end_time nw
   /\ staff_id old = staff_id nw
   /\ (room_id old = None \/ room_id nw = None \/ room_id old = room_id nw))
  \/ (audit_timetable_changes old nw u now
      = [mkAuditLog "timetables"%string (id nw) "UPDATE"%string
           (audited old) (audited nw) u now]
      /\ (start_time old <> start_time nw \/ end_time old <> end_time nw
          \/ staff_id old <> staff_id nw
          \/ exists x y, room_id old = Some x /\ room_id nw = Some y
                         /\ x <> y)).
Proof.
  unfold audit_timetable_changes, sql_neq.
  destruct (Z.eqb_spec (start_time old) (start_time nw)) as [Es|Es];
  [|right; split; [reflexivity|left; exact Es]].
  destruct (Z.eqb_spec (end_time old) (end_time nw)) as [Ee|Ee];
  [|right; split; [simpl; reflexivity|right; left; exact Ee]].
  destruct (Z.eqb_spec (staff_id old) (staff_id nw)) as [Ef|Ef];
  [|right; split; [simpl; reflexivity|right; right; left; exact Ef]].
  simpl.
  destruct (room_id old) as [x|] eqn:Ro, (room_id nw) as [y|] eqn:Rn;
    simpl.
  - destruct (Z.eqb_spec x y) as [Exy|Exy]; simpl.
    + left. subst y. auto 7.
    + right. split; [reflexivity|]. right; right; right. eauto.
  - left. auto 7.
  - left. auto 7.
  - left. auto 7.
Qed.

End AuditExtra.

Module CommentsExtra.
Import Comments.


Lemma existsb_eqb_true {A : Type} (f : A -> Z) (k : Z) (l : list A) :
  existsb (fun x => f x =? k) l = true <-> exists x, In x l /\ f x = k.
Proof.
  rewrite existsb_exists. split; intros (x & Hin & E); exists x;
    rewrite ?Z.eqb_eq in *; auto.
Qed.



(** Invariant kept by [insert_comment] (the [notify_admin_on_comment]
    trigger): notifications and comments correspond one to one, in
    insertion order, each notification of type [new_comment] referencing
    its comment and naming its user and timetable; comment ids stay
    distinct and every stored rating passes the check. *)
Theorem insert_comment_keeps_invariant (d d' : db) (c : comment) (now : Z) :
  Forall2 (fun c n => n_type n = "new_comment"%string
                      /\ n_reference_id n = c_id c
                      /\ n_message n = NewCommentFrom (c_user_id c)
                                         (c_timetable_id c))
          (comments d) (admin_notifications d) ->
  NoDup (map c_id (comments d)) ->
  Forall (fun c => rating_check (c_rating c) = true) (comments d) ->
  insert_comment d c now = Some d' ->
  Forall2 (fun c n => n_type n = "new_comment"%string
                      /\ n_reference_id n = c_id c
                      /\ n_message n = NewCommentFrom (c_user_id c)
                                         (c_timetable_id c))
          (comments d') (admin_notifications d')
  /\ NoDup (map c_id (comments d'))
  /\ Forall (fun c => rating_check (c_rating c) = true) (comments d').
Proof.
  intros Hpair Hnd Hrat. unfold insert_comment.
  destruct (negb (text_fits (c_text c))); [discriminate|].
  destruct (rating_check (c_rating c)) eqn:Hr; simpl; [|discriminate].
  destruct (existsb (fun c0 => c_id c0 =? c_id c) (comments d)) eqn:Ex;
    [discriminate|].
  destruct (negb (existsb _ (user_ids d))); [discriminate|].
  destruct (negb (existsb _ (timetable_ids d))); [discriminate|].
  destruct (match c_parent_comment_id c with
            | Some p => _ | None => false end); [discriminate|].
  intros [= <-]. simpl. split; [|split].
  - apply Forall2_app; [exact Hpair|]. constructor; [|constructor].
    simpl. auto.
  - rewrite map_app. apply NoDup_app; [exact Hnd | repeat constructor; easy|].
    intros z Hz [<- | []]. apply in_map_iff in Hz as (c' & E & Hin).
    assert (existsb (fun c0 => c_id c0 =? c_id c) (comments d) = true)
      by (apply existsb_eqb_true; eauto).
    congruence.
  - apply Forall_app. split; [exact Hrat|]. constructor; [exact Hr|constructor].
Qed.

End CommentsExtra.

(** ** Further properties of the frontend guards and the API client *)

Module AuthExtra.
Import Auth.

Section Extra.

Context {Json : Type}.
Variable json_parse : String.string -> option Json.
Variable json_role : Json -> option String.string.
Variable json_truthy : Json -> bool.

(** [RequireAuth] and [RequireGuest] split every visitor between them:
    with a non-empty [access] token stored, the first renders its
    children and the second redirects to [/]; with none (or an empty
    one), the first redirects to [/login] and the second renders its
    children. *)
Theorem auth_guest_complementary (st : storage) :
  ((exists t, ls_access st = Some t /\ t <> ""%string)
   /\ RequireAuth st = Children /\ RequireGuest st = NavigateTo "/"%string)
  \/ ((forall t, ls_access st = Some t -> t = ""%string)
      /\ RequireAuth st = NavigateTo "/login"%string
      /\ RequireGuest st = Children).
Proof.
  unfold RequireAuth, RequireGuest, isAuthenticated, str_truthy.
  destruct (ls_access st) as [t|].
  - destruct (String.eqb_spec t "") as [->|Ht]; simpl.
    + right. split; [intros t' [= <-]; reflexivity|]. auto.
    + left. split; [eauto|]. auto.
  - simpl. right. split; [intros t' [=]|]. auto.
Qed.

(** [RequireAdmin] renders its children exactly when a non-empty
    [access] token is stored and the stored [user] entry is a non-empty
    string that parses to a truthy value whose [role] is ["admin"]. *)
Theorem require_admin_children_iff (st : storage) :
  RequireAdmin json_parse json_role json_truthy st = Children
  <-> (exists t, ls_access st = Some t /\ t <> ""%string)
      /\ exists raw u, ls_user st = Some raw /\ raw <> ""%string
                       /\ json_parse raw = Some u /\ json_truthy u = true
                       /\ json_role u = Some "admin"%string.
Proof.
  unfold RequireAdmin, isAuthenticated, isAdmin, getStoredUser, str_truthy.
  assert (Ht : forall s : String.string,
             negb (String.eqb s "") = true <-> s <> ""%string).
  { intro s. rewrite negb_true_iff, <- not_true_iff_false, String.eqb_eq.
    tauto. }
  destruct (ls_access st) as [t|] eqn:Ha;
    [|simpl; split; [discriminate|intros [(t & [=] & _) _]]].
  destruct (negb (String.eqb t "")) eqn:Et; simpl;
    [|split; [discriminate|intros [(t' & [= <-] & Hne) _];
                apply Ht in Hne; congruence]].
  destruct (ls_user st) as [raw|] eqn:Hu;
    [|simpl; split; [discriminate|intros [_ (raw & u & [=] & _)]]].
  destruct (negb (String.eqb raw "")) eqn:Er;
    [|simpl; split; [discriminate|intros [_ (raw' & u & [= <-] & Hne & _)];
                       apply Ht in Hne; congruence]].
  destruct (json_parse raw) as [u|] eqn:Hp;
    [|simpl; split; [discriminate|intros [_ (raw' & u & [= <-] & _ & Hp' & _)];
                       congruence]].
  destruct (json_truthy u) eqn:Hj;
    [|simpl; split; [discriminate|intros [_ (raw' & u' & [= <-] & _ & Hp' & Hj' & _)];
                       congruence]].
  destruct (json_role u) as [r|] eqn:Hr;
    [|simpl; split; [discriminate|intros [_ (raw' & u' & [= <-] & _ & Hp' & _ & Hr')];
                       congruence]].
  destruct (String.eqb_spec r "admin") as [->|Hne]; simpl.
  - split; [intros _|reflexivity]. split.
    + exists t. split; [reflexivity|]. now apply Ht.
    + exists raw, u. repeat split; auto. now apply Ht.
  - split; [discriminate|]. intros [_ (raw' & u' & [= <-] & _ & Hp' & _ & Hr')].
    congruence.
Qed.

End Extra.
End AuthExtra.

Module ApiExtra.
Import Api.

Lemma get_set_same (k v : String.string) (h : headers) :
  get_header k (set_header k v h) = Some v.
Proof.
  induction h as [|[k' v'] r IH]; simpl.
  - rewrite String.eqb_refl. reflexivity.
  - destruct (String.eqb_spec k' k); simpl.
    + rewrite String.eqb_refl. reflexivity.
    + destruct (String.eqb_spec k' k); [contradiction | exact IH].
Qed.

Lemma get_set_other (k k2 v : String.string) (h : headers) :
  k <> k2 -> get_header k2 (set_header k v h) = get_header k2 h.
Proof.
  intro Hne. induction h as [|[k' v'] r IH]; simpl.
  - destruct (String.eqb_spec k k2); [contradiction|reflexivity].
  - destruct (String.eqb_spec k' k) as [->|]; simpl.
    + destruct (String.eqb_spec k k2); [contradiction|reflexivity].
    + destruct (String.eqb_spec k' k2); [reflexivity|exact IH].
Qed.

(** With a non-empty [access] token the interceptor never throws, and the
    request carries [Authorization: Bearer <token>], plus the
    [X-CSRFToken] header when a non-empty CSRF token is stored. *)
Theorem interceptor_sets_bearer (t : String.string)
    (csrf : option String.string) (hdrs : option headers) :
  t <> ""%string ->
  exists h', request_interceptor (Some t) csrf hdrs = Some (Some h')
    /\ get_header "Authorization" h' = Some ("Bearer " ++ t)%string
    /\ forall c, csrf = Some c -> c <> ""%string ->
       get_header "X-CSRFToken" h' = Some c.
Proof.
  intro Ht. unfold request_interceptor, Auth.str_truthy.
  destruct (String.eqb_spec t "") as [|_]; [contradiction|]. simpl.
  set (h0 := set_header "Authorization" ("Bearer " ++ t)
               match hdrs with Some h => h | None => [] end).
  destruct csrf as [c|].
  - destruct (String.eqb_spec c "") as [->|Hc]; simpl.
    + exists h0. repeat split; [apply get_set_same|].
      intros c' [= <-] Hne. contradiction.
    + exists (set_header "X-CSRFToken" c h0). split; [reflexivity|]. split.
      * rewrite get_set_other by discriminate. apply get_set_same.
      * intros c' [= <-] _. apply get_set_same.
  - exists h0. repeat split; [apply get_set_same|]. intros c' [=].
Qed.

(** The interceptor throws exactly when a non-empty CSRF token is stored,
    no (non-empty) access token is, and the request has no headers
    object: the [config.headers || {}] guard only covers the token
    branch. *)
Theorem interceptor_type_error_iff (access csrf : option String.string)
    (hdrs : option headers) :
  request_interceptor access csrf hdrs = None
  <-> hdrs = None /\ Auth.str_truthy access = false
      /\ Auth.str_truthy csrf = true.
Proof.
  unfold request_interceptor.
  destruct access as [t|]; [destruct (Auth.str_truthy (Some t)) eqn:Et|];
  (destruct csrf as [c|]; [destruct (Auth.str_truthy (Some c)) eqn:Ec|]);
  destruct hdrs as [h|]; simpl;
  split; try discriminate; try (intros (? & ? & ?); congruence); auto.
Qed.

(** The interceptor touches only [Authorization] and [X-CSRFToken]:
    every other header of the request keeps its value. *)
Theorem interceptor_keeps_other_headers (access csrf : option String.string)
    (h h' : headers) (k : String.string) :
  request_interceptor access csrf (Some h) = Some (Some h') ->
  k <> "Authorization"%string -> k <> "X-CSRFToken"%string ->
  get_header k h' = get_header k h.
Proof.
  intros E Ha Hc. unfold request_interceptor in E.
  assert (Hpre : exists h0,
             match access with
             | Some t =>
                 if Auth.str_truthy (Some t) then
                   Some (set_header "Authorization" ("Bearer " ++ t)
                           match Some h with Some h => h | None => [] end)
                 else Some h
             | None => Some h
             end = Some h0 /\ get_header k h0 = get_header k h).
  { destruct access as [t|]; [destruct (Auth.str_truthy (Some t))|];
      eexists; split; try reflexivity.
    apply get_set_other. congruence. }
  destruct Hpre as (h0 & E0 & G0). rewrite E0 in E.
  destruct csrf as [c|]; [destruct (Auth.str_truthy (Some c))|];
    injection E as <-; rewrite <- G0; try reflexivity.
  apply get_set_other. congruence.
Qed.

End ApiExtra.

(** ** Concrete runs of the further properties *)

Module ExtraRuns.

(** Staff 7 is free only on Monday at 9: the lecture of subject 1 takes
    that slot, the tutorial finds none, and the lecture stays. *)
Lemma schedule_subject_failure_keeps_placed_witness :
  Scheduler.schedule_subject Toy.subj_id Toy.s_hour Toy.get_available_staff
    Toy.get_batch_constraints Toy.get_component_duration
    Toy.get_available_slots Toy.is_slot_available Toy.no_consecutive
    Toy.no_gap Toy.no_preference Toy.assign_slot Toy.sub1 0%nat
    [(7, 1)]%nat [Toy.mkSlot monday 9 7 1] []
  = (false, [(1%nat, lecture, Toy.mkSlot monday 9 7 1)])
  /\ ((Toy.find_optimal_slot lecture (Toy.get_available_staff 1 [(7, 1)]%nat)
         [Toy.mkSlot monday 9 7 1] tt [] = None
       /\ [(1%nat, lecture, Toy.mkSlot monday 9 7 1)] = [])
      \/ (exists s1,
            Toy.find_optimal_slot lecture
              (Toy.get_available_staff 1 [(7, 1)]%nat)
              [Toy.mkSlot monday 9 7 1] tt [] = Some s1
            /\ Toy.find_optimal_slot tutorial
                 (Toy.get_available_staff 1 [(7, 1)]%nat)
                 [Toy.mkSlot monday 9 7 1] tt
                 (Toy.assign_slot Toy.sub1 lecture s1 []) = None
            /\ [(1%nat, lecture, Toy.mkSlot monday 9 7 1)]
               = Toy.assign_slot Toy.sub1 lecture s1 [])
      \/ (exists s1 s2,
            Toy.find_optimal_slot lecture
              (Toy.get_available_staff 1 [(7, 1)]%nat)
              [Toy.mkSlot monday 9 7 1] tt [] = Some s1
            /\ Toy.find_optimal_slot tutorial
                 (Toy.get_available_staff 1 [(7, 1)]%nat)
                 [Toy.mkSlot monday 9 7 1] tt
                 (Toy.assign_slot Toy.sub1 lecture s1 []) = Some s2
            /\ Toy.find_optimal_slot lab
                 (Toy.get_available_staff 1 [(7, 1)]%nat)
                 [Toy.mkSlot monday 9 7 1] tt
                 (Toy.assign_slot Toy.sub1 tutorial s2
                    (Toy.assign_slot Toy.sub1 lecture s1 [])) = None
            /\ [(1%nat, lecture, Toy.mkSlot monday 9 7 1)]
               = Toy.assign_slot Toy.sub1 tutorial s2
                   (Toy.assign_slot Toy.sub1 lecture s1 []))).
Proof.
  split; [vm_compute; reflexivity|].
  exact (SchedulerExtra.schedule_subject_failure_keeps_placed Toy.subj_id
           Toy.s_hour Toy.get_available_staff Toy.get_batch_constraints
           Toy.get_component_duration Toy.get_available_slots
           Toy.is_slot_available Toy.no_consecutive Toy.no_gap
           Toy.no_preference Toy.assign_slot Toy.sub1 0%nat [(7, 1)]%nat
           [Toy.mkSlot monday 9 7 1] []
           [(1%nat, lecture, Toy.mkSlot monday 9 7 1)]
           ltac:(vm_compute; reflexivity)).
Defined.

(** Three distinct conflicts, all reschedulable: the first and third are
    handled, the second stays, and the run reports failure. *)
Lemma resolve_conflicts_skips_every_other_witness :
  (forall (c : nat) (t : list nat), (fun _ _ => true) c t = true)
  /\ (forall a c : nat, Nat.eqb a c = true <-> a = c)
  /\ NoDup [1; 2; 3]%nat
  /\ exists tt',
       Scheduler.resolve_conflicts Nat.eqb (fun (_ : nat) (_ : list nat) => true)
         (fun c t => c :: t) [1; 2; 3]%nat [] = ([2]%nat, tt', false).
Proof.
  assert (Hc : forall (c : nat) (t : list nat), (fun _ _ => true) c t = true)
    by reflexivity.
  assert (He : forall a c : nat, Nat.eqb a c = true <-> a = c)
    by (intros; apply Nat.eqb_eq).
  assert (Hn : NoDup [1; 2; 3]%nat)
    by (repeat constructor; simpl; intuition discriminate).
  split; [exact Hc|]. split; [exact He|]. split; [exact Hn|].
  destruct (SchedulerExtra.resolve_conflicts_skips_every_other Nat.eqb
              (fun (_ : nat) (_ : list nat) => true) (fun c t => c :: t)
              [1; 2; 3]%nat [] Hc He Hn) as [tt' H].
  exists tt'. exact H.
Defined.

(** A 10:00-11:00 row meets a 9:00-10:00 row at 10:00: the trigger counts
    the shared endpoint as an overlap. *)
Lemma trigger_overlap_closed_witness :
  Timetables.start_time Timetables.row_mon_10_11
    <= Timetables.end_time Timetables.row_mon_10_11
  /\ Timetables.start_time Timetables.row_mon_9_10
     <= Timetables.end_time Timetables.row_mon_9_10
  /\ Timetables.trigger_overlap Timetables.row_mon_10_11 Timetables.row_mon_9_10
     = (Timetables.start_time Timetables.row_mon_10_11
          <=? Timetables.end_time Timetables.row_mon_9_10)
       && (Timetables.start_time Timetables.row_mon_9_10
             <=? Timetables.end_time Timetables.row_mon_10_11)
  /\ Timetables.trigger_overlap Timetables.row_mon_10_11
       Timetables.row_mon_9_10 = true.
Proof.
  assert (H1 : Timetables.start_time Timetables.row_mon_10_11
               <= Timetables.end_time Timetables.row_mon_10_11)
    by (simpl; lia).
  assert (H2 : Timetables.start_time Timetables.row_mon_9_10
               <= Timetables.end_time Timetables.row_mon_9_10)
    by (simpl; lia).
  split; [exact H1|]. split; [exact H2|]. split.
  - exact (TriggerExtra.trigger_overlap_closed _ _ H1 H2).
  - vm_compute. reflexivity.
Defined.

(** Staff 8 has no assignment: a row ending before it starts is refused
    by the ordering test only, on a Saturday, with type [weekday]. *)
Lemma validate_without_batch_witness :
  Availability.lookup_batch [Availability.batch1]
    (Availability.first_assignment_batch Availability.staff7_assignments 8)
  = None
  /\ Availability.validate_availability_times [Availability.batch1]
       Availability.staff7_assignments
       (Availability.mkAvailability 8 saturday 600 540
          Availability.weekday true)
     = Signal "Start time must be before end time"%string.
Proof.
  assert (H : Availability.lookup_batch [Availability.batch1]
                (Availability.first_assignment_batch
                   Availability.staff7_assignments 8) = None)
    by (vm_compute; reflexivity).
  split; [exact H|].
  exact (AvailabilityExtra.validate_without_batch _ _
           (Availability.mkAvailability 8 saturday 600 540
              Availability.weekday true) H).
Defined.

(** A stored comment and its notification; user 4 replies to it. *)
Lemma insert_comment_keeps_invariant_witness :
  Comments.insert_comment (Comments.mkDb [2; 4] [3] [(Comments.mkComment 1 2 3 None "Clear slots"%string (Some 4) false)]
       [(Comments.mkNotification "new_comment"%string 1 (Comments.NewCommentFrom 2 3) 0)])
    (Comments.mkComment 2 4 3 (Some 1) "Agreed"%string None false) 5
  = Some (Comments.mkDb [2; 4] [3] [(Comments.mkComment 1 2 3 None "Clear slots"%string (Some 4) false); (Comments.mkComment 2 4 3 (Some 1) "Agreed"%string None false)]
       [(Comments.mkNotification "new_comment"%string 1 (Comments.NewCommentFrom 2 3) 0); (Comments.mkNotification "new_comment"%string 2 (Comments.NewCommentFrom 4 3) 5)])
  /\ Forall2 (fun c n => Comments.n_type n = "new_comment"%string
               /\ Comments.n_reference_id n = Comments.c_id c
               /\ Comments.n_message n
                  = Comments.NewCommentFrom (Comments.c_user_id c)
                      (Comments.c_timetable_id c))
       [(Comments.mkComment 1 2 3 None "Clear slots"%string (Some 4) false); (Comments.mkComment 2 4 3 (Some 1) "Agreed"%string None false)]
       [(Comments.mkNotification "new_comment"%string 1 (Comments.NewCommentFrom 2 3) 0); (Comments.mkNotification "new_comment"%string 2 (Comments.NewCommentFrom 4 3) 5)]
  /\ NoDup (map Comments.c_id [(Comments.mkComment 1 2 3 None "Clear slots"%string (Some 4) false); (Comments.mkComment 2 4 3 (Some 1) "Agreed"%string None false)])
  /\ Forall (fun c => Comments.rating_check (Comments.c_rating c) = true)
       [(Comments.mkComment 1 2 3 None "Clear slots"%string (Some 4) false); (Comments.mkComment 2 4 3 (Some 1) "Agreed"%string None false)].
Proof.
  assert (E : Comments.insert_comment (Comments.mkDb [2; 4] [3] [(Comments.mkComment 1 2 3 None "Clear slots"%string (Some 4) false)]
       [(Comments.mkNotification "new_comment"%string 1 (Comments.NewCommentFrom 2 3) 0)])
                (Comments.mkComment 2 4 3 (Some 1) "Agreed"%string None false) 5
              = Some (Comments.mkDb [2; 4] [3] [(Comments.mkComment 1 2 3 None "Clear slots"%string (Some 4) false); (Comments.mkComment 2 4 3 (Some 1) "Agreed"%string None false)]
       [(Comments.mkNotification "new_comment"%string 1 (Comments.NewCommentFrom 2 3) 0); (Comments.mkNotification "new_comment"%string 2 (Comments.NewCommentFrom 4 3) 5)]))
    by (vm_compute; reflexivity).
  assert (Hp : Forall2 (fun c n => Comments.n_type n = "new_comment"%string
               /\ Comments.n_reference_id n = Comments.c_id c
               /\ Comments.n_message n
                  = Comments.NewCommentFrom (Comments.c_user_id c)
                      (Comments.c_timetable_id c))
                 [(Comments.mkComment 1 2 3 None "Clear slots"%string (Some 4) false)] [(Comments.mkNotification "new_comment"%string 1 (Comments.NewCommentFrom 2 3) 0)])
    by (repeat constructor).
  assert (Hn : NoDup (map Comments.c_id [(Comments.mkComment 1 2 3 None "Clear slots"%string (Some 4) false)]))
    by (repeat constructor; simpl; tauto).
  assert (Hr : Forall (fun c => Comments.rating_check (Comments.c_rating c) = true)
                 [(Comments.mkComment 1 2 3 None "Clear slots"%string (Some 4) false)])
    by (repeat constructor).
  split; [exact E|].
  exact (CommentsExtra.insert_comment_keeps_invariant (Comments.mkDb [2; 4] [3] [(Comments.mkComment 1 2 3 None "Clear slots"%string (Some 4) false)]
       [(Comments.mkNotification "new_comment"%string 1 (Comments.NewCommentFrom 2 3) 0)])
           _ _ _ Hp Hn Hr E).
Defined.

(** Token [abc], CSRF token [xyz], and no headers object. *)
Lemma interceptor_sets_bearer_witness :
  "abc"%string <> ""%string
  /\ exists h',
       Api.request_interceptor (Some "abc"%string) (Some "xyz"%string) None
       = Some (Some h')
       /\ Api.get_header "Authorization" h' = Some "Bearer abc"%string
       /\ forall c, Some "xyz"%string = Some c -> c <> ""%string ->
          Api.get_header "X-CSRFToken" h' = Some c.
Proof.
  assert (H : "abc"%string <> ""%string) by discriminate.
  split; [exact H|].
  exact (ApiExtra.interceptor_sets_bearer "abc" (Some "xyz"%string) None H).
Defined.

(** An [Accept] header survives both assignments. *)
Lemma interceptor_keeps_other_headers_witness :
  Api.request_interceptor (Some "abc"%string) (Some "xyz"%string)
    (Some [("Accept", "application/json")]%string)
  = Some (Some [("Accept", "application/json");
                ("Authorization", "Bearer abc");
                ("X-CSRFToken", "xyz")]%string)
  /\ "Accept"%string <> "Authorization"%string
  /\ "Accept"%string <> "X-CSRFToken"%string
  /\ Api.get_header "Accept"
       [("Accept", "application/json"); ("Authorization", "Bearer abc");
        ("X-CSRFToken", "xyz")]%string
     = Api.get_header "Accept" [("Accept", "application/json")]%string.
Proof.
  assert (E : Api.request_interceptor (Some "abc"%string) (Some "xyz"%string)
                (Some [("Accept", "application/json")]%string)
              = Some (Some [("Accept", "application/json");
                            ("Authorization", "Bearer abc");
                            ("X-CSRFToken", "xyz")]%string))
    by (vm_compute; reflexivity).
  assert (Ha : "Accept"%string <> "Authorization"%string) by discriminate.
  assert (Hc : "Accept"%string <> "X-CSRFToken"%string) by discriminate.
  split; [exact E|]. split; [exact Ha|]. split; [exact Hc|].
  exact (ApiExtra.interceptor_keeps_other_headers _ _ _ _ _ E Ha Hc).
Defined.

End ExtraRuns.
